(** * contract-reader: the review endpoint and its result normalisation

    A shallow embedding of
      - [src/app/api/review/route.ts]   (module [Route]),
      - [src/unnamed/part_000]          (module [Cors], the same handler
        answering through [corsJson]),
      - [src/app/Review/page.tsx]       (module [Page], the client-side
        normaliser and its dev tests),
    over a small model of the JavaScript values the handlers compute with.

    JavaScript strings are sequences of UTF-16 code units; values are the
    JSON values plus [undefined]; the outcome of every awaited external
    call (form data, pdf-parse, mammoth, the chat completion) is read from
    a [World], and every such call is appended to a trace. *)

From Stdlib Require Import List NArith ZArith Ascii String Bool Lia.
From Stdlib Require Import DecimalString.
Import ListNotations.

Set Implicit Arguments.

(** ** JavaScript strings *)

(** A string is its list of UTF-16 code units. *)
Definition jsstring := list N.

(** An ASCII literal of the source. *)
Definition js (s : string) : jsstring :=
  map N_of_ascii (list_ascii_of_string s).

(** Line feed and double quote, for the literals that contain them. *)
Definition LF : jsstring := [10%N].
Definition DQ : jsstring := [34%N].

Fixpoint str_eqb (a b : jsstring) : bool :=
  match a, b with
  | [], [] => true
  | x :: a', y :: b' => N.eqb x y && str_eqb a' b'
  | _, _ => false
  end.

(** [!s] on a string: only the empty string is falsy. *)
Definition str_falsy (s : jsstring) : bool :=
  match s with [] => true | _ => false end.

(** [s.length] *)
Definition str_length (s : jsstring) : N := N.of_nat (List.length s).

(** [s.slice(0, n)] for a non-negative [n]. *)
Definition slice0 (n : N) (s : jsstring) : jsstring := firstn (N.to_nat n) s.

(** Case folding of the code units a-z, A-Z.  Without the [u] flag a
    regular expression's [i] never lets a code unit above 127 match an
    ASCII letter, so for the ASCII patterns of this program comparing
    [upper_ascii] images is exactly what [/.../i] does. *)
Definition upper_ascii (c : N) : N :=
  if (97 <=? c)%N && (c <=? 122)%N then (c - 32)%N else c.

(** [String.prototype.toLowerCase] on the code units A-Z; other code units
    are kept.  The program only asks whether the result ends with [.pdf],
    [.docx] or [.doc], and no code unit outside A-Z lower-cases to one of
    the letters of these suffixes. *)
Definition lower_ascii (c : N) : N :=
  if (65 <=? c)%N && (c <=? 90)%N then (c + 32)%N else c.

Definition toLowerCase (s : jsstring) : jsstring := map lower_ascii s.

Fixpoint prefix_by (eqc : N -> N -> bool) (p s : jsstring) : bool :=
  match p, s with
  | [], _ => true
  | x :: p', y :: s' => eqc x y && prefix_by eqc p' s'
  | _ :: _, [] => false
  end.

Fixpoint infix_by (eqc : N -> N -> bool) (p s : jsstring) : bool :=
  prefix_by eqc p s ||
  match s with
  | [] => false
  | _ :: s' => infix_by eqc p s'
  end.

Definition eq_ci (a b : N) : bool := N.eqb (upper_ascii a) (upper_ascii b).

(** [s.includes(p)] *)
Definition includes (s p : jsstring) : bool := infix_by N.eqb p s.

(** [s.endsWith(p)] *)
Definition endsWith (s p : jsstring) : bool := prefix_by N.eqb (rev p) (rev s).

(** [/p$/i.test(s)] for a literal ASCII [p]: [$] without the [m] flag is
    the end of the input. *)
Definition endsWith_ci (s p : jsstring) : bool := prefix_by eq_ci (rev p) (rev s).

(** [/p/i.test(s)] for a literal ASCII [p]. *)
Definition includes_ci (s p : jsstring) : bool := infix_by eq_ci p s.

(** WhiteSpace and LineTerminator code units, which [trim] strips. *)
Definition is_space (c : N) : bool :=
  ((9 <=? c) && (c <=? 13) || (c =? 32) || (c =? 160) || (c =? 5760)
   || (8192 <=? c) && (c <=? 8202) || (c =? 8232) || (c =? 8233)
   || (c =? 8239) || (c =? 8287) || (c =? 12288) || (c =? 65279))%N.

Fixpoint trimStart (s : jsstring) : jsstring :=
  match s with
  | c :: s' => if is_space c then trimStart s' else s
  | [] => []
  end.

Fixpoint trimEnd (s : jsstring) : jsstring :=
  match s with
  | c :: s' =>
      match trimEnd s' with
      | [] => if is_space c then [] else [c]
      | rest => c :: rest
      end
  | [] => []
  end.

(** [s.trim()] *)
Definition trim (s : jsstring) : jsstring := trimEnd (trimStart s).

(** [xs.join(sep)] on strings. *)
Fixpoint join (sep : jsstring) (xs : list jsstring) : jsstring :=
  match xs with
  | [] => []
  | [x] => x
  | x :: rest => x ++ sep ++ join sep rest
  end.

(** ** JavaScript values *)

(** The values [JSON.parse] can produce, and [undefined].  [Num] is the
    engine's number type (an IEEE double in Node). *)
#[warnings="-register-all"] Inductive JSValue (Num : Type) : Type :=
| JUndefined
| JNull
| JBool (b : bool)
| JNum (n : Num)
| JStr (s : jsstring)
| JArr (xs : list (JSValue Num))
| JObj (props : list (jsstring * JSValue Num)).

Arguments JUndefined {Num}.
Arguments JNull {Num}.
Arguments JBool {Num} b.
Arguments JStr {Num} s.
Arguments JArr {Num} xs.
Arguments JObj {Num} props.

(** What the program takes from the JavaScript engine as it is: numbers and
    their decimal printing, and [JSON.parse] ([None] is a [SyntaxError]). *)
Class Engine : Type := {
  Num : Type;
  Number_toString : Num -> jsstring;
  JSON_parse : jsstring -> option (JSValue Num);
}.

(** Decimal printing of the integer-valued numbers, used by the concrete
    engines of the examples. *)
Definition Z_toString (z : Z) : jsstring :=
  js (NilZero.string_of_int (Z.to_int z)).

(** [JSON.parse] on the JSON texts whose strings have no escape sequence
    and whose numbers are integers of magnitude at most 2^53, other than
    [-0].  Every other text is rejected, be it JSON or not.  Used by the
    concrete engine of the examples. *)
Module Json.

Definition is_ws (c : N) : bool :=
  ((c =? 32) || (c =? 9) || (c =? 10) || (c =? 13))%N.

Fixpoint skip_ws (s : jsstring) : jsstring :=
  match s with
  | c :: s' => if is_ws c then skip_ws s' else s
  | [] => []
  end.

(** The characters of a string up to its closing quote. *)
Fixpoint chars (s : jsstring) : option (jsstring * jsstring) :=
  match s with
  | [] => None
  | c :: s' =>
      if (c =? 34)%N then Some ([], s')
      else if ((c =? 92) || (c <? 32))%N then None
      else match chars s' with
           | Some (x, rest) => Some (c :: x, rest)
           | None => None
           end
  end.

Definition is_digit (c : N) : bool := ((48 <=? c) && (c <=? 57))%N.

Fixpoint digits (acc : Z) (s : jsstring) : Z * jsstring :=
  match s with
  | c :: s' =>
      if is_digit c then digits (10 * acc + Z.of_N (c - 48)) s' else (acc, s)
  | [] => (acc, [])
  end.

(** An integer: [0], or a non-zero digit and more digits, up to 2^53 so
    that a double holds it exactly; nothing of a fraction or an exponent may
    follow. *)
Definition natural (s : jsstring) : option (Z * jsstring) :=
  match s with
  | c :: s' =>
      if is_digit c then
        let '(z, rest) := if (c =? 48)%N then (0%Z, s') else digits 0 s in
        if (z <=? 2 ^ 53)%Z then
          match rest with
          | d :: _ =>
              if (is_digit d || (d =? 46) || (d =? 101) || (d =? 69))%N
              then None else Some (z, rest)
          | [] => Some (z, rest)
          end
        else None
      else None
  | [] => None
  end.

Definition integer (s : jsstring) : option (Z * jsstring) :=
  match s with
  | 45%N :: s' =>
      match natural s' with
      | Some (z, rest) => if (z =? 0)%Z then None else Some ((- z)%Z, rest)
      | None => None
      end
  | _ => natural s
  end.

(** A literal [true], [false] or [null]. *)
Definition literal (w : string) (s : jsstring) : option jsstring :=
  if prefix_by N.eqb (js w) s then Some (skipn (List.length (js w)) s) else None.

(** A later member replaces an earlier one of the same name. *)
Fixpoint define (k : jsstring) (v : JSValue Z) (props : list (jsstring * JSValue Z))
  : list (jsstring * JSValue Z) :=
  match props with
  | [] => [(k, v)]
  | (k', v') :: rest =>
      if str_eqb k' k then (k', v) :: rest else (k', v') :: define k v rest
  end.

Section Loops.
Variable value : jsstring -> option (JSValue Z * jsstring).

(** After an element: a comma and another element, or the closing
    bracket. *)
Fixpoint elements (n : nat) (s : jsstring) : option (list (JSValue Z) * jsstring) :=
  match n with
  | O => None
  | S n' =>
      match skip_ws s with
      | 93%N :: rest => Some ([], rest)
      | 44%N :: rest =>
          match value rest with
          | Some (v, rest') =>
              match elements n' rest' with
              | Some (vs, rest'') => Some (v :: vs, rest'')
              | None => None
              end
          | None => None
          end
      | _ => None
      end
  end.

Definition member (s : jsstring) : option (jsstring * JSValue Z * jsstring) :=
  match skip_ws s with
  | 34%N :: rest =>
      match chars rest with
      | Some (k, rest') =>
          match skip_ws rest' with
          | 58%N :: rest'' =>
              match value rest'' with
              | Some (v, r) => Some (k, v, r)
              | None => None
              end
          | _ => None
          end
      | None => None
      end
  | _ => None
  end.

(** After a member: a comma and another member, or the closing brace. *)
Fixpoint members (n : nat) (acc : list (jsstring * JSValue Z)) (s : jsstring)
  : option (list (jsstring * JSValue Z) * jsstring) :=
  match n with
  | O => None
  | S n' =>
      match skip_ws s with
      | 125%N :: rest => Some (acc, rest)
      | 44%N :: rest =>
          match member rest with
          | Some (k, v, rest') => members n' (define k v acc) rest'
          | None => None
          end
      | _ => None
      end
  end.

End Loops.

Fixpoint value (fuel : nat) (s : jsstring) : option (JSValue Z * jsstring) :=
  match fuel with
  | O => None
  | S fuel' =>
      match skip_ws s with
      | 123%N :: rest =>
          match skip_ws rest with
          | 125%N :: rest' => Some (JObj [], rest')
          | _ =>
              match member (value fuel') rest with
              | Some (k, v, rest') =>
                  match members (value fuel') (List.length s) [(k, v)] rest' with
                  | Some (props, r) => Some (JObj props, r)
                  | None => None
                  end
              | None => None
              end
          end
      | 91%N :: rest =>
          match skip_ws rest with
          | 93%N :: rest' => Some (JArr [], rest')
          | _ =>
              match value fuel' rest with
              | Some (v, rest') =>
                  match elements (value fuel') (List.length s) rest' with
                  | Some (vs, r) => Some (JArr (v :: vs), r)
                  | None => None
                  end
              | None => None
              end
          end
      | 34%N :: rest =>
          match chars rest with
          | Some (x, r) => Some (JStr x, r)
          | None => None
          end
      | 116%N :: _ => option_map (pair (JBool true)) (literal "true" (skip_ws s))
      | 102%N :: _ => option_map (pair (JBool false)) (literal "false" (skip_ws s))
      | 110%N :: _ => option_map (pair JNull) (literal "null" (skip_ws s))
      | _ =>
          match integer (skip_ws s) with
          | Some (z, r) => Some (JNum z, r)
          | None => None
          end
      end
  end.

Definition parse (s : jsstring) : option (JSValue Z) :=
  match value (S (List.length s)) s with
  | Some (v, rest) =>
      match skip_ws rest with
      | [] => Some v
      | _ => None
      end
  | None => None
  end.

End Json.

(** The engine of the examples: integer numbers, printed in decimal. *)
Definition integer_engine : Engine :=
  {| Num := Z; Number_toString := Z_toString; JSON_parse := Json.parse |}.

Section Values.
Context {E : Engine}.

Definition Value : Type := JSValue Num.

(** Own property lookup on the property list of an object. *)
Fixpoint lookup (k : jsstring) (props : list (jsstring * Value)) : option Value :=
  match props with
  | [] => None
  | (k', v) :: rest => if str_eqb k' k then Some v else lookup k rest
  end.

(** [v?.k] for a property name [k] that no prototype defines (the twelve
    names the program reads: snapshot, risks, counters, rawText and the nine
    snapshot fields): the own property of an object, [undefined] on
    every other value, [null] and [undefined] included. *)
Definition getProp (v : Value) (k : jsstring) : Value :=
  match v with
  | JObj props => match lookup k props with Some x => x | None => JUndefined end
  | _ => JUndefined
  end.

(** [a ?? b] *)
Definition nullish (a b : Value) : Value :=
  match a with
  | JUndefined | JNull => b
  | _ => a
  end.

(** [typeof v === "string"] *)
Definition is_string (v : Value) : bool :=
  match v with JStr _ => true | _ => false end.

(** [Array.isArray(v)] *)
Definition isArray (v : Value) : bool :=
  match v with JArr _ => true | _ => false end.

(** [String(v)], that is ToString; [None] is a thrown [TypeError].
    An array prints as [join(",")] of its elements, [null] and [undefined]
    elements printing as the empty string.  A parsed object has no callable
    property of its own, so one with an own [toString] property cannot be
    converted, and every other one prints as [[object Object]]. *)
Fixpoint ToString (v : Value) : option jsstring :=
  match v with
  | JUndefined => Some (js "undefined")
  | JNull => Some (js "null")
  | JBool true => Some (js "true")
  | JBool false => Some (js "false")
  | JNum n => Some (Number_toString n)
  | JStr s => Some s
  | JArr xs =>
      option_map (join (js ","))
        ((fix elements (xs : list Value) : option (list jsstring) :=
            match xs with
            | [] => Some []
            | x :: rest =>
                match (match x with
                       | JUndefined | JNull => Some []
                       | _ => ToString x
                       end), elements rest with
                | Some s, Some ss => Some (s :: ss)
                | _, _ => None
                end
            end) xs)
  | JObj props =>
      match lookup (js "toString") props with
      | Some _ => None
      | None => Some (js "[object Object]")
      end
  end.

End Values.

(** ** Requests, responses and awaited calls *)

Definition Bytes := list N.

(** An awaited promise either resolves or rejects. *)
Inductive Outcome (A : Type) : Type :=
| Resolved (a : A)
| Rejected.

Arguments Rejected {A}.

(** The uploaded [File]: [name], [type], [size] and what
    [file.arrayBuffer()] settles to. *)
Record File : Type := {
  name : jsstring;
  type : jsstring;
  size : N;
  arrayBuffer : Outcome Bytes;
}.

(** [form.get("file")] is a [File], a string (a plain form field) or
    [null]. *)
Inductive FormEntry : Type :=
| EntryNull
| EntryString (s : jsstring)
| EntryFile (f : File).

(** [completion.choices[i]]: its [message.content], a string or [null]. *)
Record Choice : Type := { message_content : option jsstring }.

(** The argument of [openai.chat.completions.create]; [temperature] holds
    the literal of the source. *)
Record ChatRequest : Type := {
  model : jsstring;
  temperature : jsstring;
  messages : list (jsstring * jsstring);   (* role, content *)
  response_format : jsstring;
}.

(** What one request meets outside the handler. *)
Record World : Type := {
  formData : Outcome FormEntry;              (* [req.formData()], then [form.get("file")] *)
  pdfParse : Outcome (option jsstring);      (* [out.text] of [pdfParse(buffer)] *)
  extractRawText : Outcome (option jsstring);(* [value] of [mammoth.extractRawText] *)
  new_OpenAI : Outcome unit;                 (* [new OpenAI({ apiKey })] throws without a key *)
  chat_create : Outcome (list Choice);       (* [choices] of the completion *)
}.

(** The external calls a handler makes, in the order it makes them. *)
Inductive Event : Type :=
| EvFormData
| EvArrayBuffer
| EvPdfParse (buffer : Bytes)
| EvExtractRawText (buffer : Bytes)
| EvChatCreate (req : ChatRequest)
| EvConsoleError (label : jsstring).

Definition Trace := list Event.

Definition is_chat (e : Event) : bool :=
  match e with
  | EvChatCreate _ => true
  | _ => false
  end.

(** [!file] *)
Definition entry_falsy (e : FormEntry) : bool :=
  match e with
  | EntryNull => true
  | EntryString s => str_falsy s
  | EntryFile _ => false
  end.

(** [(file as any).name], [.type], [.size]: [undefined] on a string. *)
Definition entry_name (e : FormEntry) : option jsstring :=
  match e with EntryFile f => Some (name f) | _ => None end.

Definition entry_type (e : FormEntry) : option jsstring :=
  match e with EntryFile f => Some (type f) | _ => None end.

Definition entry_size (e : FormEntry) : option N :=
  match e with EntryFile f => Some (size f) | _ => None end.

(** [file.arrayBuffer()]: a string has no such method, the call throws. *)
Definition entry_arrayBuffer (e : FormEntry) : Outcome Bytes :=
  match e with EntryFile f => arrayBuffer f | _ => Rejected end.

(** [out.text] or [fname], or else the empty string. *)
Definition or_empty (s : option jsstring) : jsstring :=
  match s with Some t => t | None => [] end.

(** [fname && ...]: an absent or empty name is falsy. *)
Definition opt_truthy (s : option jsstring) : bool :=
  match s with Some t => negb (str_falsy t) | None => false end.

Section Effects.
Context {E : Engine}.

(** A response: status, headers, and the value handed to
    [JSON.stringify] for the body. *)
Record Response : Type := {
  status : N;
  headers : list (jsstring * jsstring);
  body : Value;
}.

(** [JSON.stringify] writes the own properties of an object whose value is
    not [undefined]; these are the ones a client finds in the body. *)
Definition emitted (props : list (jsstring * Value)) : list (jsstring * Value) :=
  filter (fun kv => match snd kv with JUndefined => false | _ => true end) props.

Definition emitted_keys (v : Value) : list jsstring :=
  match v with
  | JObj props => map fst (emitted props)
  | _ => []
  end.

(** How a statement list completes: normally with a value, by [return],
    or by a thrown exception. *)
Inductive Completion (A : Type) : Type :=
| Normal (a : A)
| Returned (r : Response)
| Thrown.

Arguments Returned {A} r.
Arguments Thrown {A}.

Definition M (A : Type) : Type := Trace -> Completion A * Trace.

Definition ret {A} (a : A) : M A := fun t => (Normal a, t).

Definition bind {A B} (m : M A) (k : A -> M B) : M B :=
  fun t =>
    match m t with
    | (Normal a, t') => k a t'
    | (Returned r, t') => (Returned r, t')
    | (Thrown, t') => (Thrown, t')
    end.

(** [return r;] *)
Definition return_ {A} (r : Response) : M A := fun t => (Returned r, t).

(** [await call], logged as [e]. *)
Definition await {A} (e : Event) (o : Outcome A) : M A :=
  fun t =>
    (match o with Resolved a => Normal a | Rejected => Thrown end, t ++ [e]).

(** A synchronous operation that may throw. *)
Definition lift {A} (o : option A) : M A :=
  fun t => (match o with Some a => Normal a | None => Thrown end, t).

Definition sync {A} (o : Outcome A) : M A :=
  fun t => (match o with Resolved a => Normal a | Rejected => Thrown end, t).

(** [try { m } catch { h }] *)
Definition try_catch {A} (m h : M A) : M A :=
  fun t =>
    match m t with
    | (Thrown, t') => h t'
    | r => r
    end.

(** The body of an async function, run from an empty trace: the response it
    returns, or [Rejected] when an exception escapes it or it ends without
    [return]. *)
Definition run (m : M Response) : Outcome Response * Trace :=
  match m [] with
  | (Returned r, t) => (Resolved r, t)
  | (Normal _, t) => (Rejected, t)
  | (Thrown, t) => (Rejected, t)
  end.

(** [xs.filter(p)] for a predicate that may throw: elements are tested in
    order and the first exception ends the call. *)
Fixpoint filterM (p : Value -> option bool) (xs : list Value) : option (list Value) :=
  match xs with
  | [] => Some []
  | x :: rest =>
      match p x with
      | None => None
      | Some b =>
          match filterM p rest with
          | None => None
          | Some ys => Some (if b then x :: ys else ys)
          end
      end
  end.

(** [/late fee/i.test(c)]: the argument is converted with ToString
    first. *)
Definition late_fee_test (c : Value) : option bool :=
  option_map (fun s => includes_ci s (js "late fee")) (ToString c).

End Effects.

Arguments Returned {E A} r.
Arguments Thrown {E A}.

Declare Scope js_scope.
Notation "x <- m ;; k" := (bind m (fun x => k))
  (at level 61, m at next level, right associativity) : js_scope.
Open Scope js_scope.

(** ** The fixed prompt *)

Definition quoted (s : string) : jsstring := DQ ++ js s ++ DQ.
Definition field (k ty : string) : jsstring := quoted k ++ js ":" ++ js ty.

Definition prompt_head : jsstring :=
  js "You are a contracts analyst for creator/brand deals. Return STRICT JSON only. Fields:".

Definition prompt_snapshot : jsstring :=
  quoted "snapshot" ++ js ": {" ++
  join (js ",")
    [ field "parties" "string"; field "dates" "string"; field "term" "string";
      field "rate" "string"; field "deliverables" "string"; field "usage" "string";
      field "brandBrief" "string|null"; field "additionalReqs" "string|null";
      field "billing" "string|null" ] ++ js "},".

Definition prompt_risks : jsstring :=
  quoted "risks" ++ js ": Array<{" ++ field "label" "string" ++ js "," ++
  quoted "level" ++ js ":" ++ quoted "Low" ++ js "|" ++ quoted "Med" ++ js "|" ++
  quoted "High" ++ js "," ++ quoted "note" ++ js "?:string}>,".

Definition prompt_counters : jsstring := quoted "counters" ++ js ": string[]".

Definition prompt_tail : jsstring := js "Do NOT include late fees in counters.".

(** [s || undefined] on a string [s]. *)
Definition or_undefined {E : Engine} (s : jsstring) : Value :=
  if str_falsy s then JUndefined else JStr s.

(** [Array.isArray(v) ? v : []], as the list of elements. *)
Definition array_or_empty {E : Engine} (v : Value) : list Value :=
  match v with JArr xs => xs | _ => [] end.

(** [completion.choices[0]?.message?.content ?? "{}"] *)
Definition first_content (choices : list Choice) : jsstring :=
  match choices with
  | c :: _ => match message_content c with Some s => s | None => js "{}" end
  | [] => js "{}"
  end.

(** [try { data = JSON.parse(content); } catch { data = {}; }] *)
Definition parse_or_empty {E : Engine} (content : jsstring) : Value :=
  match JSON_parse content with Some d => d | None => JObj [] end.

(** [console.error(label, err)] *)
Definition console_error {E : Engine} (label : jsstring) : M unit :=
  fun t => (Normal tt, t ++ [EvConsoleError label]).

(** ** src/app/api/review/route.ts *)

Module Route.
Section Handler.
Context {E : Engine}.

Definition s_cleanStr (input : Value) : jsstring :=
  match input with
  | JStr s => s
  | JNull | JUndefined => []
  | _ => match ToString input with Some s => s | None => [] end
  end.

Definition s_normalizeSnapshot (s : Value) : Value :=
  let parties := s_cleanStr (getProp s (js "parties")) in
  let dates := s_cleanStr (getProp s (js "dates")) in
  let term := s_cleanStr (getProp s (js "term")) in
  let rate := s_cleanStr (getProp s (js "rate")) in
  let deliverables := s_cleanStr (getProp s (js "deliverables")) in
  let usage := s_cleanStr (getProp s (js "usage")) in
  let brandBrief := s_cleanStr (getProp s (js "brandBrief")) in
  let additionalReqs := s_cleanStr (getProp s (js "additionalReqs")) in
  let billing := s_cleanStr (getProp s (js "billing")) in
  JObj [ (js "parties", JStr parties);
         (js "dates", JStr dates);
         (js "term", JStr term);
         (js "rate", JStr rate);
         (js "deliverables", JStr deliverables);
         (js "usage", JStr usage);
         (js "brandBrief", or_undefined brandBrief);
         (js "additionalReqs", or_undefined additionalReqs);
         (js "billing", or_undefined billing) ].

Definition extractTextFromPDF (w : World) (buffer : Bytes) : M jsstring :=
  out_text <- await (EvPdfParse buffer) (pdfParse w) ;;
  ret (or_empty out_text).

Definition extractTextFromDOCX (w : World) (arrayBuffer : Bytes) : M jsstring :=
  value <- await (EvExtractRawText arrayBuffer) (extractRawText w) ;;
  ret (or_empty value).

Definition looksLikePDF (filename mime : option jsstring) : bool :=
  match mime with Some m => includes m (js "pdf") | None => false end
  || match filename with
     | Some f => endsWith (toLowerCase f) (js ".pdf")
     | None => false
     end.

Definition looksLikeDOCX (filename mime : option jsstring) : bool :=
  let n := or_empty (option_map toLowerCase filename) in
  match mime with Some m => includes m (js "word") | None => false end
  || endsWith n (js ".docx") || endsWith n (js ".doc").

(** [NextResponse.json(body, { status })] *)
Definition NextResponse_json (body : Value) (status : N) : Response :=
  {| status := status;
     headers := [(js "content-type", js "application/json")];
     body := body |}.

Definition error_body (msg : jsstring) : Value := JObj [(js "error", JStr msg)].

Definition MAX_BYTES : N := 15 * 1024 * 1024.
Definition TEXT_LIMIT : N := 50000.

(** [/\.(pdf|docx?|rtf)$/i.test(fname)] *)
Definition allowed (fname : jsstring) : bool :=
  existsb (endsWith_ci fname) [js ".pdf"; js ".doc"; js ".docx"; js ".rtf"].

Definition system : jsstring :=
  prompt_head ++ LF ++
  js "{" ++ LF ++
  js "  " ++ prompt_snapshot ++ LF ++
  js "  " ++ prompt_risks ++ LF ++
  js "  " ++ prompt_counters ++ LF ++
  js "}" ++ LF ++
  prompt_tail.

(** Lines 63-92 of [POST]: from the form data to the extracted [text]. *)
Definition POST_text (w : World) : M jsstring :=
  file <- await EvFormData (formData w) ;;
  if entry_falsy file then
    return_ (NextResponse_json (error_body (js "No file provided")) 400)
  else
  let fname := entry_name file in
  let mime := entry_type file in
  let size := entry_size file in
  if match size with Some n => (MAX_BYTES <? n)%N | None => false end then
    return_ (NextResponse_json (error_body (js "File too large (max 15MB).")) 413)
  else
  if opt_truthy fname && negb (allowed (or_empty fname)) then
    return_ (NextResponse_json (error_body
      (js "Unsupported file type. Please upload a PDF or Word document.")) 415)
  else
  arrayBuffer <- await EvArrayBuffer (entry_arrayBuffer file) ;;
  let buffer := arrayBuffer in
  if looksLikePDF fname mime then
    try_catch (extractTextFromPDF w buffer)
      (return_ (NextResponse_json (error_body
        (js "Unable to parse PDF. If it's password-protected, export an unlocked copy and re-upload.")) 422))
  else if looksLikeDOCX fname mime || endsWith_ci (or_empty fname) (js ".doc") then
    try_catch (extractTextFromDOCX w arrayBuffer)
      (return_ (NextResponse_json (error_body
        (js "Unable to read Word file. Try saving as DOCX or PDF and re-upload.")) 422))
  else
    text <- try_catch (extractTextFromPDF w buffer) (ret []) ;;
    if str_falsy text then try_catch (extractTextFromDOCX w arrayBuffer) (ret text)
    else ret text.

(** Lines 93-132 of [POST]: from the extracted [text] to the response. *)
Definition POST_reply (w : World) (text : jsstring) : M Response :=
  if str_falsy text || (str_length (trim text) <? 20)%N then
    return_ (NextResponse_json (error_body
      (js "We couldn't extract readable text. Please export to PDF or DOCX and re-upload.")) 422)
  else
  let trimmed := slice0 TEXT_LIMIT text in
  _ <- sync (new_OpenAI w) ;;
  let user := js "Contract text:" ++ LF ++ LF ++ trimmed in
  completion <- await
    (EvChatCreate {| model := js "gpt-4o-mini";
                     temperature := js "0.2";
                     messages := [(js "system", system); (js "user", user)];
                     response_format := js "json_object" |})
    (chat_create w) ;;
  let content := first_content completion in
  let data := parse_or_empty content in
  let snapshot := s_normalizeSnapshot (nullish (getProp data (js "snapshot")) (JObj [])) in
  let risks := array_or_empty (getProp data (js "risks")) in
  counters <- lift (filterM (fun c => option_map negb (late_fee_test c))
                            (array_or_empty (getProp data (js "counters")))) ;;
  let out := JObj [ (js "snapshot", snapshot);
                    (js "risks", JArr risks);
                    (js "counters", JArr counters);
                    (js "rawText", JStr trimmed) ] in
  return_ {| status := 200;
             headers := [(js "Content-Type", js "application/json");
                         (js "Cache-Control", js "no-store, max-age=0")];
             body := out |}.

Definition POST (w : World) : Outcome Response * Trace :=
  run (try_catch
         (text <- POST_text w ;; POST_reply w text)
         (_ <- console_error (js "/api/review error") ;;
          return_ (NextResponse_json (error_body (js "Unexpected error")) 500))).

End Handler.
End Route.

(** ** src/unnamed/part_000 *)

Module Cors.
Section Handler.
Context {E : Engine}.

Definition CORS_HEADERS : list (jsstring * jsstring) :=
  [ (js "Access-Control-Allow-Origin", js "*");
    (js "Access-Control-Allow-Methods", js "POST, OPTIONS");
    (js "Access-Control-Allow-Headers", js "Content-Type") ].

Definition corsJson (body : Value) (status : N) : Response :=
  {| status := status;
     headers := CORS_HEADERS ++ [(js "Content-Type", js "application/json")];
     body := body |}.

(** The preflight handler answers 204 with no body. *)
Definition OPTIONS : Response :=
  {| status := 204; headers := CORS_HEADERS; body := JNull |}.

Definition s_cleanStr (input : Value) : jsstring :=
  match input with
  | JStr s => s
  | JNull | JUndefined => []
  | _ => match ToString input with Some s => s | None => [] end
  end.

Definition s_normalizeSnapshot (s : Value) : Value :=
  let parties := s_cleanStr (getProp s (js "parties")) in
  let dates := s_cleanStr (getProp s (js "dates")) in
  let term := s_cleanStr (getProp s (js "term")) in
  let rate := s_cleanStr (getProp s (js "rate")) in
  let deliverables := s_cleanStr (getProp s (js "deliverables")) in
  let usage := s_cleanStr (getProp s (js "usage")) in
  let brandBrief := s_cleanStr (getProp s (js "brandBrief")) in
  let additionalReqs := s_cleanStr (getProp s (js "additionalReqs")) in
  let billing := s_cleanStr (getProp s (js "billing")) in
  JObj [ (js "parties", JStr parties);
         (js "dates", JStr dates);
         (js "term", JStr term);
         (js "rate", JStr rate);
         (js "deliverables", JStr deliverables);
         (js "usage", JStr usage);
         (js "brandBrief", or_undefined brandBrief);
         (js "additionalReqs", or_undefined additionalReqs);
         (js "billing", or_undefined billing) ].

Definition extractTextFromPDF (w : World) (buffer : Bytes) : M jsstring :=
  out_text <- await (EvPdfParse buffer) (pdfParse w) ;;
  ret (or_empty out_text).

Definition extractTextFromDOCX (w : World) (arrayBuffer : Bytes) : M jsstring :=
  value <- await (EvExtractRawText arrayBuffer) (extractRawText w) ;;
  ret (or_empty value).

Definition looksLikePDF (filename mime : option jsstring) : bool :=
  match mime with Some m => includes m (js "pdf") | None => false end
  || match filename with
     | Some f => endsWith (toLowerCase f) (js ".pdf")
     | None => false
     end.

Definition looksLikeDOCX (filename mime : option jsstring) : bool :=
  let n := or_empty (option_map toLowerCase filename) in
  match mime with Some m => includes m (js "word") | None => false end
  || endsWith n (js ".docx") || endsWith n (js ".doc").

Definition error_body (msg : jsstring) : Value := JObj [(js "error", JStr msg)].

Definition MAX_BYTES : N := 15 * 1024 * 1024.
Definition TEXT_LIMIT : N := 50000.

(** [/\.(pdf|docx?|rtf)$/i.test(fname)] *)
Definition allowed (fname : jsstring) : bool :=
  existsb (endsWith_ci fname) [js ".pdf"; js ".doc"; js ".docx"; js ".rtf"].

Definition system : jsstring :=
  prompt_head ++ LF ++
  js "      {" ++ LF ++
  js "        " ++ prompt_snapshot ++ LF ++
  js "        " ++ prompt_risks ++ LF ++
  js "        " ++ prompt_counters ++ LF ++
  js "      }" ++ LF ++
  js "      " ++ prompt_tail.

(** Lines 94-128 of [POST]: from the form data to the extracted [text]. *)
Definition POST_text (w : World) : M jsstring :=
  file <- await EvFormData (formData w) ;;
  if entry_falsy file then
    return_ (corsJson (error_body (js "No file provided")) 400)
  else
  let fname := entry_name file in
  let mime := entry_type file in
  let size := entry_size file in
  if match size with Some n => (MAX_BYTES <? n)%N | None => false end then
    return_ (corsJson (error_body (js "File too large (max 15MB).")) 413)
  else
  if opt_truthy fname && negb (allowed (or_empty fname)) then
    return_ (corsJson (error_body
      (js "Unsupported file type. Please upload a PDF or Word document.")) 415)
  else
  arrayBuffer <- await EvArrayBuffer (entry_arrayBuffer file) ;;
  let buffer := arrayBuffer in
  if looksLikePDF fname mime then
    try_catch (extractTextFromPDF w buffer)
      (return_ (corsJson (error_body
        (js "Unable to parse PDF. If it's password-protected, export an unlocked copy and re-upload.")) 422))
  else if looksLikeDOCX fname mime || endsWith_ci (or_empty fname) (js ".doc") then
    try_catch (extractTextFromDOCX w arrayBuffer)
      (return_ (corsJson (error_body
        (js "Unable to read Word file. Try saving as DOCX or PDF and re-upload.")) 422))
  else
    text <- try_catch (extractTextFromPDF w buffer) (ret []) ;;
    if str_falsy text then try_catch (extractTextFromDOCX w arrayBuffer) (ret text)
    else ret text.

(** Lines 130-170 of [POST]: from the extracted [text] to the response. *)
Definition POST_reply (w : World) (text : jsstring) : M Response :=
  if str_falsy text || (str_length (trim text) <? 20)%N then
    return_ (corsJson (error_body
      (js "We couldn't extract readable text. Please export to PDF or DOCX and re-upload.")) 422)
  else
  let trimmed := slice0 TEXT_LIMIT text in
  _ <- sync (new_OpenAI w) ;;
  let user := js "Contract text:" ++ LF ++ LF ++ trimmed in
  completion <- await
    (EvChatCreate {| model := js "gpt-4o-mini";
                     temperature := js "0.2";
                     messages := [(js "system", system); (js "user", user)];
                     response_format := js "json_object" |})
    (chat_create w) ;;
  let content := first_content completion in
  let data := parse_or_empty content in
  let snapshot := s_normalizeSnapshot (nullish (getProp data (js "snapshot")) (JObj [])) in
  let risks := array_or_empty (getProp data (js "risks")) in
  counters <- lift (filterM (fun c => option_map negb (late_fee_test c))
                            (array_or_empty (getProp data (js "counters")))) ;;
  let out := JObj [ (js "snapshot", snapshot);
                    (js "risks", JArr risks);
                    (js "counters", JArr counters);
                    (js "rawText", JStr trimmed) ] in
  return_ (corsJson out 200).

Definition POST (w : World) : Outcome Response * Trace :=
  run (try_catch
         (text <- POST_text w ;; POST_reply w text)
         (_ <- console_error (js "/api/review error") ;;
          return_ (corsJson (error_body (js "Unexpected error")) 500))).

End Handler.
End Cors.

(** ** src/app/Review/page.tsx *)

Module Page.
Section Normalise.
Context {E : Engine}.

Definition cleanStr (input : Value) : jsstring :=
  match input with
  | JStr s => s
  | JNull | JUndefined => []
  | _ => match ToString input with Some s => s | None => [] end
  end.

Definition normalizeSnapshot (s : Value) : Value :=
  let parties := cleanStr (getProp s (js "parties")) in
  let dates := cleanStr (getProp s (js "dates")) in
  let term := cleanStr (getProp s (js "term")) in
  let rate := cleanStr (getProp s (js "rate")) in
  let deliverables := cleanStr (getProp s (js "deliverables")) in
  let usage := cleanStr (getProp s (js "usage")) in
  let brandBriefVal := cleanStr (getProp s (js "brandBrief")) in
  let additionalReqsVal := cleanStr (getProp s (js "additionalReqs")) in
  let billingVal := cleanStr (getProp s (js "billing")) in
  JObj [ (js "parties", JStr parties);
         (js "dates", JStr dates);
         (js "term", JStr term);
         (js "rate", JStr rate);
         (js "deliverables", JStr deliverables);
         (js "usage", JStr usage);
         (js "brandBrief", or_undefined brandBriefVal);
         (js "additionalReqs", or_undefined additionalReqsVal);
         (js "billing", or_undefined billingVal) ].

Definition normalizeResult (data : Value) : Value :=
  let snapshot := normalizeSnapshot (nullish (getProp data (js "snapshot")) (JObj [])) in
  let risks := JArr (array_or_empty (getProp data (js "risks"))) in
  let counters := JArr (array_or_empty (getProp data (js "counters"))) in
  JObj [ (js "snapshot", snapshot);
         (js "risks", risks);
         (js "counters", counters);
         (js "rawText", or_undefined (cleanStr (getProp data (js "rawText")))) ].

End Normalise.
End Page.

(** ** The shapes the specification names *)

Definition mandatory_fields : list jsstring :=
  [js "parties"; js "dates"; js "term"; js "rate"; js "deliverables"; js "usage"].

Definition optional_fields : list jsstring :=
  [js "brandBrief"; js "additionalReqs"; js "billing"].

Definition snapshot_fields : list jsstring := mandatory_fields ++ optional_fields.

(** The extension of a file name: what follows its last dot, if it has
    one. *)
Fixpoint until_dot (r : jsstring) : option jsstring :=
  match r with
  | [] => None
  | c :: r' => if (c =? 46)%N then Some [] else option_map (cons c) (until_dot r')
  end.

Definition extension (fname : jsstring) : option jsstring :=
  option_map (@rev N) (until_dot (rev fname)).

(** Two strings equal up to the case of the letters a-z. *)
Definition same_ci (a b : jsstring) : bool :=
  str_eqb (map upper_ascii a) (map upper_ascii b).

(** The extension is one of pdf, doc, docx, rtf, in any letter case. *)
Definition supported_extension (fname : jsstring) : bool :=
  match extension fname with
  | Some e => existsb (same_ci e) [js "pdf"; js "doc"; js "docx"; js "rtf"]
  | None => false
  end.

Section Shapes.
Context {E : Engine}.

(** The snapshot of a response body. *)
Definition snapshot_of (r : Response) : Value := getProp (body r) (js "snapshot").

(** Every one of the nine snapshot fields reads as a string. *)
Definition snapshot_all_strings (r : Response) : bool :=
  forallb (fun k => is_string (getProp (snapshot_of r) k)) snapshot_fields.

Definition is_null (v : Value) : bool :=
  match v with JNull => true | _ => false end.

Definition is_undefined (v : Value) : bool :=
  match v with JUndefined => true | _ => false end.

Definition is_level (v : Value) : bool :=
  match v with
  | JStr s => str_eqb s (js "Low") || str_eqb s (js "Med") || str_eqb s (js "High")
  | _ => false
  end.

(** [{label: string, level: "Low"|"Med"|"High", note?: string}] *)
Definition is_risk (v : Value) : bool :=
  match v with
  | JObj _ =>
      is_string (getProp v (js "label")) && is_level (getProp v (js "level"))
      && (is_undefined (getProp v (js "note")) || is_string (getProp v (js "note")))
  | _ => false
  end.

(** [risks] of a response is a list of well-formed risks. *)
Definition risks_well_formed (r : Response) : bool :=
  match getProp (body r) (js "risks") with
  | JArr xs => forallb is_risk xs
  | _ => false
  end.

(** A reply that matches the schema the prompt asks for. *)
Definition conforms (data : Value) : bool :=
  match data with
  | JObj _ =>
      match getProp data (js "snapshot") with
      | JObj _ =>
          forallb (fun k => is_string (getProp (getProp data (js "snapshot")) k))
                  mandatory_fields
          && forallb (fun k => is_string (getProp (getProp data (js "snapshot")) k)
                               || is_null (getProp (getProp data (js "snapshot")) k))
                     optional_fields
      | _ => false
      end
      && match getProp data (js "risks") with
         | JArr xs => forallb is_risk xs
         | _ => false
         end
      && match getProp data (js "counters") with
         | JArr xs => forallb is_string xs
         | _ => false
         end
  | _ => false
  end.

(** [c] matches [/late fee/i]. *)
Definition mentions_late_fee (c : Value) : bool :=
  match late_fee_test c with Some b => b | None => false end.

End Shapes.

(** ** Responses and requests, as the theorems name them *)

(** A call with the system message of a chat request left out: the two
    files indent their prompt differently. *)
Definition forget_system (e : Event) : Event :=
  match e with
  | EvChatCreate req =>
      EvChatCreate
        {| model := model req;
           temperature := temperature req;
           messages := filter (fun m => negb (str_eqb (fst m) (js "system")))
                              (messages req);
           response_format := response_format req |}
  | _ => e
  end.

Section Statements.
Context {E : Engine}.

(** The request of lines 112-117 for the text [trimmed]. *)
Definition is_review_request (sys trimmed : jsstring) (req : ChatRequest) : Prop :=
  req = {| model := js "gpt-4o-mini";
           temperature := js "0.2";
           messages := [(js "system", sys);
                        (js "user", js "Contract text:" ++ LF ++ LF ++ trimmed)];
           response_format := js "json_object" |}.

(** The object [out] of lines 122-127. *)
Definition review_body (snapshot : Value) (risks counters : list Value)
    (rawText : jsstring) : Value :=
  JObj [ (js "snapshot", snapshot);
         (js "risks", JArr risks);
         (js "counters", JArr counters);
         (js "rawText", JStr rawText) ].

(** [counters.filter((c) => !/late fee/i.test(c))] *)
Definition filter_counters (data : Value) : option (list Value) :=
  filterM (fun c => option_map negb (late_fee_test c))
          (array_or_empty (getProp data (js "counters"))).

(** [!text || text.trim().length < 20], the test of line 93. *)
Definition too_short (text : jsstring) : bool :=
  str_falsy text || (str_length (trim text) <? 20)%N.

(** The 200 response of line 129 for the parsed reply [data], the
    filtered [counters] and the extracted [text]. *)
Definition Route_ok (data : Value) (counters : list Value) (text : jsstring) : Response :=
  {| status := 200;
     headers := [(js "Content-Type", js "application/json");
                 (js "Cache-Control", js "no-store, max-age=0")];
     body := review_body
               (Route.s_normalizeSnapshot (nullish (getProp data (js "snapshot")) (JObj [])))
               (array_or_empty (getProp data (js "risks")))
               counters
               (slice0 50000 text) |}.

(** [NextResponse.json({ error: msg }, { status: code })] *)
Definition Route_error (msg : string) (code : N) : Response :=
  Route.NextResponse_json (Route.error_body (js msg)) code.

Definition Route_500 : Response := Route_error "Unexpected error" 500.

Definition Cors_500 : Response :=
  Cors.corsJson (Cors.error_body (js "Unexpected error")) 500.

(** The headers the two handlers put on a response of the same status. *)
Definition headers_as_written (r1 r2 : Response) : Prop :=
  headers r2 = Cors.CORS_HEADERS ++ [(js "Content-Type", js "application/json")] /\
  headers r1 = if (status r1 =? 200)%N
               then [(js "Content-Type", js "application/json");
                     (js "Cache-Control", js "no-store, max-age=0")]
               else [(js "content-type", js "application/json")].

(** Two completions that are the same up to the headers of a returned
    response. *)
Definition agree {A : Type} (x y : Completion A) : Prop :=
  match x, y with
  | Normal a, Normal b => a = b
  | Returned r1, Returned r2 =>
      status r1 = status r2 /\ body r1 = body r2 /\ headers_as_written r1 r2
  | Thrown, Thrown => True
  | _, _ => False
  end.

End Statements.

(** ** Concrete requests *)

Module Demo.

Definition contract_text : jsstring :=
  js "This Agreement is made between Acme Corp and Bo Lee, creator.".

Definition deal_pdf : File :=
  {| name := js "deal.pdf"; type := js "application/pdf"; size := 2048;
     arrayBuffer := Resolved [37; 80; 68; 70]%N |}.

(** A request whose PDF yields [text] and whose completion is [reply]. *)
Definition world (f : File) (text reply : jsstring) : World :=
  {| formData := Resolved (EntryFile f);
     pdfParse := Resolved (Some text);
     extractRawText := Rejected;
     new_OpenAI := Resolved tt;
     chat_create := Resolved [{| message_content := Some reply |}] |}.

Definition pair_text (k : string) (v : jsstring) : jsstring := quoted k ++ js ":" ++ v.
Definition str_text (s : string) : jsstring := quoted s.

(** The replies of the examples, as JSON text and as [JSON.parse] reads
    them. *)
Definition reply_empty : jsstring := js "{}".

Definition reply_prose : jsstring := js "Sorry, I can not read this contract.".

Definition snapshot_text : jsstring :=
  js "{" ++ join (js ",")
    [ pair_text "parties" (str_text "Acme Corp and Bo Lee");
      pair_text "dates" (str_text "2024-01-01 to 2024-06-30");
      pair_text "term" (str_text "6 months");
      pair_text "rate" (str_text "USD 5000");
      pair_text "deliverables" (str_text "3 videos");
      pair_text "usage" (str_text "Organic social, 90 days");
      pair_text "brandBrief" (js "null");
      pair_text "additionalReqs" (str_text "FTC disclosure");
      pair_text "billing" (str_text "Net 30") ] ++ js "}".

Definition snapshot_value : JSValue Z :=
  JObj [ (js "parties", JStr (js "Acme Corp and Bo Lee"));
         (js "dates", JStr (js "2024-01-01 to 2024-06-30"));
         (js "term", JStr (js "6 months"));
         (js "rate", JStr (js "USD 5000"));
         (js "deliverables", JStr (js "3 videos"));
         (js "usage", JStr (js "Organic social, 90 days"));
         (js "brandBrief", JNull);
         (js "additionalReqs", JStr (js "FTC disclosure"));
         (js "billing", JStr (js "Net 30")) ].

Definition risk_text : jsstring :=
  js "{" ++ pair_text "label" (str_text "Exclusivity") ++ js "," ++
  pair_text "level" (str_text "High") ++ js "}".

Definition risk_value : JSValue Z :=
  JObj [ (js "label", JStr (js "Exclusivity")); (js "level", JStr (js "High")) ].

Definition reply_full : jsstring :=
  js "{" ++ pair_text "snapshot" snapshot_text ++ js "," ++
  pair_text "risks" (js "[" ++ risk_text ++ js "]") ++ js "," ++
  pair_text "counters"
    (js "[" ++ str_text "Ask for net 15" ++ js "," ++
     str_text "Add a Late Fee of 5% per month" ++ js "]") ++ js "}".

Definition data_full : JSValue Z :=
  JObj [ (js "snapshot", snapshot_value);
         (js "risks", JArr [risk_value]);
         (js "counters", JArr [ JStr (js "Ask for net 15");
                                JStr (js "Add a Late Fee of 5% per month") ]) ].

Definition reply_odd_risk : jsstring :=
  js "{" ++ pair_text "risks" (js "[42]") ++ js "}".

Definition data_odd_risk : JSValue Z := JObj [ (js "risks", JArr [JNum 42%Z]) ].

(** A counter that cannot be converted to a string. *)
Definition reply_opaque_counter : jsstring :=
  js "{" ++ pair_text "counters" (js "[{" ++ pair_text "toString" (js "1") ++ js "}]")
  ++ js "}".

Definition data_opaque_counter : JSValue Z :=
  JObj [ (js "counters", JArr [JObj [(js "toString", JNum 1%Z)]]) ].

Definition engine : Engine := integer_engine.

(** A text of 50,010 code units. *)
Definition long_text : jsstring := repeat 97%N (N.to_nat 50010).

(** A text file above the size limit, and a file without a name. *)
Definition big_txt : File :=
  {| name := js "notes.txt"; type := js "text/plain"; size := 16 * 1024 * 1024;
     arrayBuffer := Resolved [] |}.

Definition nameless : File :=
  {| name := []; type := js "application/octet-stream"; size := 2048;
     arrayBuffer := Resolved [] |}.

Definition small_txt : File :=
  {| name := js "notes.txt"; type := js "text/plain"; size := 2048;
     arrayBuffer := Resolved [] |}.

(** The requests of the examples and what the handler does on them. *)
Definition full_world : World := world deal_pdf contract_text reply_full.
Definition empty_world : World := world deal_pdf contract_text reply_empty.
Definition prose_world : World := world deal_pdf contract_text reply_prose.
Definition odd_world : World := world deal_pdf contract_text reply_odd_risk.
Definition short_world : World := world deal_pdf (js "Hello") reply_full.
Definition big_world : World := world big_txt contract_text reply_full.
Definition nameless_world : World := world nameless contract_text reply_empty.
Definition txt_world : World := world small_txt contract_text reply_full.

Definition opaque_world : World := world deal_pdf contract_text reply_opaque_counter.
Definition long_world : World := world deal_pdf long_text reply_empty.

Definition pdf_trace : Trace :=
  [EvFormData; EvArrayBuffer; EvPdfParse [37; 80; 68; 70]%N].

Definition request : ChatRequest :=
  {| model := js "gpt-4o-mini";
     temperature := js "0.2";
     messages := [ (js "system", @Route.system);
                   (js "user", js "Contract text:" ++ LF ++ LF ++ contract_text) ];
     response_format := js "json_object" |}.

Definition called_trace : Trace := pdf_trace ++ [EvChatCreate request].

Definition full_response : @Response engine :=
  @Route_ok engine data_full [JStr (js "Ask for net 15")] contract_text.

Definition empty_response : @Response engine :=
  @Route_ok engine (JObj []) [] contract_text.

Definition odd_response : @Response engine :=
  @Route_ok engine data_odd_risk [] contract_text.

Definition too_large_response : @Response engine :=
  @Route_error engine "File too large (max 15MB)." 413.

End Demo.

(** ** How an upload is dispatched, in terms of its name and type *)

(** The type mentions pdf, or the name ends in .pdf in any letter case. *)
Definition is_pdf (f : File) : bool :=
  includes (type f) (js "pdf") || endsWith_ci (name f) (js ".pdf").

(** The type mentions word, or the name ends in .docx or .doc in any
    letter case. *)
Definition is_word (f : File) : bool :=
  includes (type f) (js "word") || endsWith_ci (name f) (js ".docx")
  || endsWith_ci (name f) (js ".doc").

(** What [text] holds after the two attempts of lines 90-91. *)
Definition fallback_text (w : World) : jsstring :=
  match pdfParse w with
  | Resolved out =>
      if str_falsy (or_empty out)
      then match extractRawText w with Resolved v => or_empty v | Rejected => [] end
      else or_empty out
  | Rejected =>
      match extractRawText w with Resolved v => or_empty v | Rejected => [] end
  end.

(** The calls of lines 90-91: the Word extractor is tried only when
    pdf-parse threw or gave no text. *)
Definition fallback_calls (w : World) (buf : Bytes) : Trace :=
  match pdfParse w with
  | Resolved out =>
      if str_falsy (or_empty out)
      then [EvPdfParse buf; EvExtractRawText buf]
      else [EvPdfParse buf]
  | Rejected => [EvPdfParse buf; EvExtractRawText buf]
  end.

(** An object, and neither [null] nor an array. *)
Definition is_plain_object {E : Engine} (v : Value) : bool :=
  match v with JObj _ => true | _ => false end.

(** What [JSON.stringify] writes of an object whose property values are
    strings or [undefined], read back: the properties that are not
    [undefined]. *)
Definition written {E : Engine} (v : Value) : Value :=
  match v with
  | JObj props => JObj (emitted props)
  | _ => v
  end.

(** The status of a response of the route, under a name of its own. *)
Definition status_of {E : Engine} (r : Response) : N := status r.

(** ** src/app/Review/page.tsx: the display helper and the API call *)

Module Client.

(** [show(val)] for [val: string | undefined]. *)
Definition show (val : option jsstring) : jsstring :=
  match val with
  | Some s =>
      if negb (str_falsy s) && negb (str_length (trim s) =? 0)%N
      then s else js "Not Specified"
  | None => js "Not Specified"
  end.

(** [`${n}`] for a non-negative integer [n]. *)
Definition N_toString (n : N) : jsstring :=
  js (NilZero.string_of_uint (N.to_uint n)).

Section Api.
Context {E : Engine}.

(** Whether a number is truthy (neither zero nor NaN) is the engine's. *)
Variable Number_truthy : Num -> bool.

(** [if (v)] *)
Definition truthy (v : Value) : bool :=
  match v with
  | JUndefined | JNull => false
  | JBool b => b
  | JNum n => Number_truthy n
  | JStr s => negb (str_falsy s)
  | JArr _ | JObj _ => true
  end.

(** The [Response] of [fetch]: [res.status] and what [res.json()] settles
    to; [res.ok] is a status from 200 to 299. *)
Record HttpResponse : Type := {
  status : N;
  json : Outcome Value;
}.

Definition ok (res : HttpResponse) : bool :=
  ((200 <=? status res) && (status res <=? 299))%N.

(** What [fetch("/api/review", ...)] settles to. *)
Record Network : Type := { fetch : Outcome HttpResponse }.

(** What can be thrown: [new Error(message)], a [TypeError], or the reason
    of a rejected promise. *)
Inductive Exception : Type :=
| Error (message : jsstring)
| TypeError
| Reason.

(** The calls of [analyzeContract], in order. *)
Inductive Call : Type :=
| Fetch (url method : jsstring)
| ReadJson
| ConsoleLog (data : Value)
| ConsoleError (label : jsstring) (err : Exception).

(** How a statement list completes: normally, by [return] of a value, or
    by [throw]. *)
Inductive Step (A : Type) : Type :=
| Go (a : A)
| Give (r : Value)
| Raise (e : Exception).

Arguments Give {A} r.
Arguments Raise {A} e.

Definition C (A : Type) : Type := list Call -> Step A * list Call.

Definition pure {A} (a : A) : C A := fun t => (Go a, t).

Definition then_ {A B} (m : C A) (k : A -> C B) : C B :=
  fun t =>
    match m t with
    | (Go a, t') => k a t'
    | (Give r, t') => (Give r, t')
    | (Raise e, t') => (Raise e, t')
    end.

Definition give {A} (r : Value) : C A := fun t => (Give r, t).

Definition raise {A} (e : Exception) : C A := fun t => (Raise e, t).

Definition awaiting {A} (c : Call) (o : Outcome A) : C A :=
  fun t => (match o with Resolved a => Go a | Rejected => Raise Reason end, t ++ [c]).

Definition log (c : Call) : C unit := fun t => (Go tt, t ++ [c]).

(** [try { m } catch (err) { h err }] *)
Definition attempt {A} (m : C A) (h : Exception -> C A) : C A :=
  fun t =>
    match m t with
    | (Raise e, t') => h e t'
    | r => r
    end.

(** The promise of an async function body. *)
Definition settle (m : C Value) : Outcome Value * list Call :=
  match m [] with
  | (Give r, t) => (Resolved r, t)
  | (Go _, t) => (Resolved JUndefined, t)
  | (Raise _, t) => (Rejected, t)
  end.

(** [throw new Error(msg)]: the message is [String(msg)], and converting
    may throw itself. *)
Definition throw_new_Error {A} (msg : Value) : C A :=
  match ToString msg with
  | Some s => raise (Error s)
  | None => raise TypeError
  end.

(** The result returned when the call failed. *)
Definition fallback : Value :=
  JObj [ (js "snapshot",
          Page.normalizeSnapshot
            (JObj [ (js "parties", JStr (js "(unknown)"));
                    (js "dates", JStr []);
                    (js "term", JStr []);
                    (js "rate", JStr []);
                    (js "deliverables", JStr []);
                    (js "usage", JStr []) ]));
         (js "risks", JArr []);
         (js "counters", JArr []) ].

Definition analyzeContract (net : Network) : Outcome Value * list Call :=
  settle
    (attempt
       (then_ (awaiting (Fetch (js "/api/review") (js "POST")) (fetch net)) (fun res =>
        then_ (if negb (ok res) then
                 let msg := JStr (js "API error " ++ N_toString (status res)) in
                 then_ (attempt
                          (then_ (awaiting ReadJson (json res)) (fun j =>
                           pure (if truthy (getProp j (js "error"))
                                 then getProp j (js "error") else msg)))
                          (fun _ => pure msg))
                       (fun msg => throw_new_Error msg)
               else pure tt) (fun _ =>
        then_ (awaiting ReadJson (json res)) (fun data =>
        then_ (log (ConsoleLog data)) (fun _ =>
        give (Page.normalizeResult data))))))
       (fun err =>
        then_ (log (ConsoleError (js "analyzeContract error") err)) (fun _ =>
        give fallback))).

(** What [JSON.parse(JSON.stringify(n))] gives for a number [n] is the
    engine's: the number itself, but zero for minus zero and [null] for
    NaN and the infinities. *)
Variable Number_wire : Num -> Value.

(** [JSON.parse(JSON.stringify(v))] for a value built from parsed JSON:
    an object loses its [undefined] properties, an [undefined] array
    element becomes [null]. *)
Fixpoint wire (v : Value) : Value :=
  match v with
  | JNum n => Number_wire n
  | JArr xs =>
      JArr (map (fun x => match x with JUndefined => JNull | _ => wire x end) xs)
  | JObj props =>
      JObj ((fix members (ps : list (jsstring * Value)) : list (jsstring * Value) :=
               match ps with
               | [] => []
               | (k, x) :: rest =>
                   match x with
                   | JUndefined => members rest
                   | _ => (k, wire x) :: members rest
                   end
               end) props)
  | _ => v
  end.

(** The response of the route as [fetch] delivers it. *)
Definition received (r : Response) : Network :=
  {| fetch := Resolved {| status := status_of r; json := Resolved (wire (body r)) |} |}.

End Api.

Arguments Give {E A} r.
Arguments Raise {E A} e.

End Client.

(** ** More concrete requests *)

Module Cases.

Definition brief_docx : File :=
  {| name := js "Brief.DOCX";
     type := js "application/vnd.openxmlformats-officedocument.wordprocessingml.document";
     size := 4096;
     arrayBuffer := Resolved [80; 75; 3; 4]%N |}.

Definition terms_rtf : File :=
  {| name := js "terms.rtf"; type := js "application/rtf"; size := 512;
     arrayBuffer := Resolved [123; 92]%N |}.

(** A PDF pdf-parse cannot read. *)
Definition locked_pdf_world : World :=
  {| formData := Resolved (EntryFile Demo.deal_pdf);
     pdfParse := Rejected;
     extractRawText := Resolved (Some Demo.contract_text);
     new_OpenAI := Resolved tt;
     chat_create := Resolved [{| message_content := Some Demo.reply_full |}] |}.

(** A Word file mammoth cannot read, though pdf-parse would give text. *)
Definition broken_docx_world : World :=
  {| formData := Resolved (EntryFile brief_docx);
     pdfParse := Resolved (Some Demo.contract_text);
     extractRawText := Rejected;
     new_OpenAI := Resolved tt;
     chat_create := Resolved [{| message_content := Some Demo.reply_full |}] |}.

(** An RTF file neither extractor can read. *)
Definition rtf_world : World :=
  {| formData := Resolved (EntryFile terms_rtf);
     pdfParse := Rejected;
     extractRawText := Rejected;
     new_OpenAI := Resolved tt;
     chat_create := Resolved [{| message_content := Some Demo.reply_full |}] |}.

Definition no_file_world : World :=
  {| formData := Resolved EntryNull;
     pdfParse := Rejected; extractRawText := Rejected;
     new_OpenAI := Resolved tt; chat_create := Rejected |}.

Definition text_field_world : World :=
  {| formData := Resolved (EntryString (js "deal.pdf"));
     pdfParse := Rejected; extractRawText := Rejected;
     new_OpenAI := Resolved tt; chat_create := Rejected |}.

(** The model cannot be reached. *)
Definition offline_world : World :=
  {| formData := Resolved (EntryFile Demo.deal_pdf);
     pdfParse := Resolved (Some Demo.contract_text);
     extractRawText := Rejected;
     new_OpenAI := Resolved tt;
     chat_create := Rejected |}.

(** The completion has no choice at all. *)
Definition silent_world : World :=
  {| formData := Resolved (EntryFile Demo.deal_pdf);
     pdfParse := Resolved (Some Demo.contract_text);
     extractRawText := Rejected;
     new_OpenAI := Resolved tt;
     chat_create := Resolved [] |}.

(** Truthiness of the integer numbers of the examples. *)
Definition Z_truthy (z : Z) : bool := negb (z =? 0)%Z.

(** An integer survives [JSON.stringify] and [JSON.parse]. *)
Definition Z_wire (z : Z) : JSValue Z := JNum z.

(** The reply is JSON, but an array. *)
Definition reply_array : jsstring := js "[1, 2]".
Definition array_world : World :=
  Demo.world Demo.deal_pdf Demo.contract_text reply_array.

End Cases.

(** ** What differs between the two files, and what reaches the wire *)

(** A call with [sys] as the system message of a chat request. *)
Definition with_system (sys : jsstring) (e : Event) : Event :=
  match e with
  | EvChatCreate req =>
      EvChatCreate
        {| model := model req;
           temperature := temperature req;
           messages := map (fun m => if str_eqb (fst m) (js "system")
                                     then (fst m, sys) else m)
                           (messages req);
           response_format := response_format req |}
  | _ => e
  end.

(** A text without the spaces that open its lines. *)
Fixpoint unindent_from (at_start : bool) (s : jsstring) : jsstring :=
  match s with
  | [] => []
  | c :: s' =>
      if (c =? 10)%N then c :: unindent_from true s'
      else if at_start && (c =? 32)%N then unindent_from true s'
      else c :: unindent_from false s'
  end.

Definition unindent (s : jsstring) : jsstring := unindent_from true s.

(** An array element as [JSON.stringify] writes it and [JSON.parse] reads
    it back: [undefined] becomes [null]. *)
Definition written_element {E : Engine} (Number_wire : Num -> Value) (x : Value)
  : Value :=
  match x with
  | JUndefined => JNull
  | _ => Client.wire Number_wire x
  end.

(** ** A reply with several risks and counters *)

Module Pair.

Definition risk_a : JSValue Z :=
  JObj [ (js "label", JStr (js "Exclusivity")); (js "level", JStr (js "High")) ].

Definition risk_b : JSValue Z :=
  JObj [ (js "label", JStr (js "Net 90")); (js "level", JStr (js "Med"));
         (js "note", JStr (js "slow")) ].

Definition counter_a : JSValue Z := JStr (js "Ask for net 15").
Definition counter_b : JSValue Z := JStr (js "Add a Late Fee of 5% per month").
Definition counter_c : JSValue Z := JStr (js "Cap exclusivity at 30 days").

Definition reply : jsstring :=
  js "{" ++
  Demo.pair_text "risks"
    (js "[{" ++ Demo.pair_text "label" (Demo.str_text "Exclusivity") ++ js "," ++
     Demo.pair_text "level" (Demo.str_text "High") ++ js "},{" ++
     Demo.pair_text "label" (Demo.str_text "Net 90") ++ js "," ++
     Demo.pair_text "level" (Demo.str_text "Med") ++ js "," ++
     Demo.pair_text "note" (Demo.str_text "slow") ++ js "}]") ++ js "," ++
  Demo.pair_text "counters"
    (js "[" ++ Demo.str_text "Ask for net 15" ++ js "," ++
     Demo.str_text "Add a Late Fee of 5% per month" ++ js "," ++
     Demo.str_text "Cap exclusivity at 30 days" ++ js "]") ++ js "}".

Definition data : JSValue Z :=
  JObj [ (js "risks", JArr [risk_a; risk_b]);
         (js "counters", JArr [counter_a; counter_b; counter_c]) ].

Definition world : World := Demo.world Demo.deal_pdf Demo.contract_text reply.

Definition response : @Response Demo.engine :=
  @Route_ok Demo.engine data [counter_a; counter_c] Demo.contract_text.

(** The request of part_000 for the same text. *)
Definition cors_request : ChatRequest :=
  {| model := js "gpt-4o-mini";
     temperature := js "0.2";
     messages := [ (js "system", @Cors.system);
                   (js "user", js "Contract text:" ++ LF ++ LF ++ Demo.contract_text) ];
     response_format := js "json_object" |}.

Definition cors_response : @Response Demo.engine :=
  @Cors.corsJson Demo.engine (body Demo.full_response) 200.

End Pair.

(** * Properties *)

(** ** Strings and filters *)

Lemma trimStart_length (s : jsstring) : (List.length (trimStart s) <= List.length s)%nat.
Proof.
  induction s as [|c s IH]; simpl; [lia|].
  destruct (is_space c); simpl; lia.
Qed.

Lemma trimEnd_length (s : jsstring) : (List.length (trimEnd s) <= List.length s)%nat.
Proof.
  induction s as [|c s IH]; simpl; [lia|].
  destruct (trimEnd s); [destruct (is_space c)|]; simpl in *; lia.
Qed.

Lemma trim_length (s : jsstring) : (List.length (trim s) <= List.length s)%nat.
Proof.
  unfold trim. etransitivity; [apply trimEnd_length|apply trimStart_length].
Qed.

Lemma short_text_rejected (text : jsstring) :
  (List.length text < 20)%nat ->
  str_falsy text || (str_length (trim text) <? 20)%N = true.
Proof.
  intros Hlen. apply orb_true_iff. right.
  apply N.ltb_lt. unfold str_length.
  pose proof (trim_length text). lia.
Qed.



Lemma str_eqb_eq (a b : jsstring) : str_eqb a b = true <-> a = b.
Proof.
  revert b. induction a as [|x a IH]; intros [|y b]; simpl; split;
    try discriminate; try reflexivity.
  - intros H. apply andb_true_iff in H. destruct H as [Hx Ha].
    apply N.eqb_eq in Hx. apply IH in Ha. congruence.
  - intros [= -> ->]. rewrite N.eqb_refl. now apply IH.
Qed.

Lemma str_eqb_rev (a b : jsstring) : str_eqb (rev a) b = str_eqb a (rev b).
Proof.
  apply eq_iff_eq_true. rewrite !str_eqb_eq. split; intros H.
  - rewrite <- H. symmetry. apply rev_involutive.
  - rewrite H. apply rev_involutive.
Qed.

Lemma upper_ascii_dot (c : N) : upper_ascii c = 46%N <-> c = 46%N.
Proof.
  unfold upper_ascii.
  destruct (97 <=? c)%N eqn:H1, (c <=? 122)%N eqn:H2; simpl; try tauto.
  apply N.leb_le in H1. lia.
Qed.

(** A pattern [p.] without a dot in [p] is a prefix of [r], up to case,
    exactly when [p] is what precedes the first dot of [r]. *)
Lemma prefix_until_dot (p r : jsstring) :
  Forall (fun a => upper_ascii a <> 46%N) p ->
  prefix_by eq_ci (p ++ [46%N]) r
    = match until_dot r with
      | Some x => same_ci x p
      | None => false
      end.
Proof.
  unfold same_ci. intros Hp. revert r.
  induction Hp as [|a p Ha Hp IH]; intros [|c r]; simpl; try reflexivity.
  - destruct (N.eqb_spec c 46) as [->|Hc]; [reflexivity|].
    rewrite andb_true_r. unfold eq_ci.
    change (upper_ascii 46) with 46%N.
    destruct (N.eqb_spec 46 (upper_ascii c)) as [Heq|_].
    + symmetry in Heq. apply -> upper_ascii_dot in Heq. contradiction.
    + now destruct (until_dot r).
  - rewrite IH. unfold eq_ci.
    destruct (N.eqb_spec c 46) as [->|Hc].
    + change (upper_ascii 46) with 46%N.
      destruct (N.eqb_spec (upper_ascii a) 46); [contradiction|reflexivity].
    + destruct (until_dot r) as [x|]; simpl.
      * now rewrite N.eqb_sym.
      * apply andb_false_r.
Qed.

(** The regular expression of line 74 accepts a name exactly when its
    extension is pdf, doc, docx or rtf, in any letter case. *)
Lemma allowed_by_extension (fname : jsstring) :
  Route.allowed fname = supported_extension fname.
Proof.
  unfold Route.allowed, supported_extension, extension, endsWith_ci.
  cbn [existsb].
  change (rev (js ".pdf")) with (rev (js "pdf") ++ [46%N]).
  change (rev (js ".doc")) with (rev (js "doc") ++ [46%N]).
  change (rev (js ".docx")) with (rev (js "docx") ++ [46%N]).
  change (rev (js ".rtf")) with (rev (js "rtf") ++ [46%N]).
  rewrite !prefix_until_dot
    by (repeat constructor; vm_compute; discriminate).
  destruct (until_dot (rev fname)) as [x|]; [|reflexivity].
  cbn [option_map]. unfold same_ci.
  rewrite !map_rev, !str_eqb_rev, <- !map_rev. reflexivity.
Qed.

Section Filter.
Context {E : Engine}.

Lemma filterM_sound (p : Value -> option bool) (xs ys : list Value) :
  filterM p xs = Some ys ->
  forall y, In y ys -> In y xs /\ p y = Some true.
Proof.
  revert ys. induction xs as [|x xs IH]; simpl; intros ys H y Hy.
  - injection H as <-. contradiction.
  - destruct (p x) as [b|] eqn:Hp; [|discriminate].
    destruct (filterM p xs) as [zs|] eqn:Hf; [|discriminate].
    injection H as <-.
    destruct b.
    + destruct Hy as [<-|Hy]; [now split; [left|]|].
      destruct (IH zs eq_refl y Hy). split; [now right|assumption].
    + destruct (IH zs eq_refl y Hy). split; [now right|assumption].
Qed.

Lemma filterM_total (p : Value -> option bool) (q : Value -> bool) (xs : list Value) :
  (forall x, In x xs -> p x = Some (q x)) ->
  filterM p xs = Some (filter q xs).
Proof.
  induction xs as [|x xs IH]; simpl; intros H; [reflexivity|].
  rewrite (H x (or_introl eq_refl)), IH by (intros; apply H; now right).
  reflexivity.
Qed.

(** On a string the pattern is tested on the string itself. *)
Lemma late_fee_test_string (c : Value) :
  is_string c = true ->
  option_map negb (late_fee_test c) = Some (negb (mentions_late_fee c)).
Proof.
  destruct c; try discriminate. intros _. reflexivity.
Qed.

Lemma kept_not_late_fee (c : Value) :
  option_map negb (late_fee_test c) = Some true -> late_fee_test c = Some false.
Proof.
  destruct (late_fee_test c) as [[|]|]; simpl; congruence.
Qed.

End Filter.

(** ** The handler of route.ts, phase by phase *)

Ltac unfold_m :=
  cbv beta iota zeta delta
    [bind ret return_ await sync lift try_catch console_error run
     Route.extractTextFromPDF Route.extractTextFromDOCX
     Cors.extractTextFromPDF Cors.extractTextFromDOCX] in *.

Section RouteFacts.
Context {E : Engine}.

(** Whatever lines 63-92 do, they only append form-data and extraction
    calls to the trace, and a response they return is an error. *)
Lemma Route_POST_text_inv (w : World) (t0 t : Trace) (c : Completion jsstring) :
  Route.POST_text w t0 = (c, t) ->
  (exists evs, t = t0 ++ evs /\ existsb is_chat evs = false) /\
  (forall r, c = Returned r ->
     In (status r) [400; 413; 415; 422]%N /\
     exists msg, body r = JObj [(js "error", JStr msg)]).
Proof.
  unfold Route.POST_text. unfold_m.
  destruct (formData w) as [file|].
  2:{ intros [= <- <-]. split; [exists [EvFormData]; auto|discriminate]. }
  destruct (entry_falsy file).
  { intros [= <- <-]. split; [exists [EvFormData]; auto|].
    intros r [= <-]. split; [simpl; auto|eexists; reflexivity]. }
  destruct (match entry_size file with Some n => _ | None => _ end).
  { intros [= <- <-]. split; [exists [EvFormData]; auto|].
    intros r [= <-]. split; [simpl; auto|eexists; reflexivity]. }
  destruct (opt_truthy (entry_name file) && _).
  { intros [= <- <-]. split; [exists [EvFormData]; auto|].
    intros r [= <-]. split; [simpl; auto|eexists; reflexivity]. }
  destruct (entry_arrayBuffer file) as [buf|].
  2:{ intros [= <- <-]. split; [exists [EvFormData; EvArrayBuffer]|discriminate].
      rewrite <- app_assoc; auto. }
  destruct (Route.looksLikePDF _ _).
  { destruct (pdfParse w); intros [= <- <-];
      (split; [exists [EvFormData; EvArrayBuffer; EvPdfParse buf];
               rewrite <- !app_assoc; auto|]);
      [discriminate|].
    intros r [= <-]. split; [simpl; auto|eexists; reflexivity]. }
  destruct (Route.looksLikeDOCX _ _ || _).
  { destruct (extractRawText w); intros [= <- <-];
      (split; [exists [EvFormData; EvArrayBuffer; EvExtractRawText buf];
               rewrite <- !app_assoc; auto|]);
      [discriminate|].
    intros r [= <-]. split; [simpl; auto|eexists; reflexivity]. }
  destruct (pdfParse w) as [out|]; [destruct (str_falsy (or_empty out))|cbn [str_falsy]];
    try destruct (extractRawText w);
    intros [= <- <-];
    (split; [|discriminate]);
    first [ exists [EvFormData; EvArrayBuffer; EvPdfParse buf; EvExtractRawText buf];
            rewrite <- !app_assoc; now auto
          | exists [EvFormData; EvArrayBuffer; EvPdfParse buf];
            rewrite <- !app_assoc; now auto ].
Qed.

Lemma Route_POST_reply_short (w : World) (text : jsstring) (t0 : Trace) :
  too_short text = true ->
  Route.POST_reply w text t0 =
    (Returned (Route_error
       "We couldn't extract readable text. Please export to PDF or DOCX and re-upload."
       422), t0).
Proof.
  unfold too_short, Route.POST_reply. intros ->. reflexivity.
Qed.

Lemma Route_POST_reply_ok (w : World) (text : jsstring) (t0 : Trace)
    (choices : list Choice) (counters : list Value) :
  too_short text = false ->
  new_OpenAI w = Resolved tt ->
  chat_create w = Resolved choices ->
  filter_counters (parse_or_empty (first_content choices)) = Some counters ->
  exists req,
    is_review_request Route.system (slice0 50000 text) req /\
    Route.POST_reply w text t0 =
      (Returned (Route_ok (parse_or_empty (first_content choices)) counters text),
       t0 ++ [EvChatCreate req]).
Proof.
  unfold too_short, filter_counters, Route.POST_reply. intros -> Hk Hc Hf.
  eexists. split; [reflexivity|].
  unfold_m. rewrite Hk, Hc, Hf. reflexivity.
Qed.

Lemma Route_POST_reply_inv (w : World) (text : jsstring) (t0 t : Trace)
    (c : Completion Response) :
  Route.POST_reply w text t0 = (c, t) ->
  (forall a, c <> Normal a) /\
  (forall r, c = Returned r -> status r = 200%N \/ status r = 422%N) /\
  (forall r, c = Returned r -> status r = 200%N ->
     too_short text = false /\
     exists choices counters req,
       chat_create w = Resolved choices /\
       filter_counters (parse_or_empty (first_content choices)) = Some counters /\
       r = Route_ok (parse_or_empty (first_content choices)) counters text /\
       is_review_request Route.system (slice0 50000 text) req /\
       t = t0 ++ [EvChatCreate req]).
Proof.
  unfold Route.POST_reply. fold (too_short text).
  destruct (too_short text).
  { unfold_m. intros [= <- <-]. repeat split; try discriminate.
    - intros r [= <-]. now right.
    - injection H as <-. discriminate H0.
    - injection H as <-. discriminate H0. }
  unfold_m. destruct (new_OpenAI w) as [[]|].
  2:{ intros [= <- <-]. repeat split; discriminate. }
  destruct (chat_create w) as [choices|] eqn:Hc.
  2:{ intros [= <- <-]. repeat split; discriminate. }
  fold (filter_counters (parse_or_empty (first_content choices))).
  destruct (filter_counters _) as [counters|] eqn:Hf.
  2:{ intros [= <- <-]. repeat split; discriminate. }
  intros [= <- <-]. repeat split; try discriminate.
  - intros r [= <-]. now left.
  - injection H as <-. exists choices, counters. eexists.
    repeat split; solve [reflexivity | exact Hf].
Qed.

(** [POST] in terms of its two phases. *)
Lemma Route_POST_phases (w : World) :
  Route.POST w =
    match Route.POST_text w [] with
    | (Normal text, tr) =>
        match Route.POST_reply w text tr with
        | (Returned r, t) => (Resolved r, t)
        | (Normal _, t) => (Rejected, t)
        | (Thrown, t) => (Resolved Route_500, t ++ [EvConsoleError (js "/api/review error")])
        end
    | (Returned r, tr) => (Resolved r, tr)
    | (Thrown, tr) => (Resolved Route_500, tr ++ [EvConsoleError (js "/api/review error")])
    end.
Proof.
  unfold Route.POST. unfold_m.
  destruct (Route.POST_text w []) as [[text|r|] tr]; try reflexivity.
  destruct (Route.POST_reply w text tr) as [[a|r|] t]; reflexivity.
Qed.

(** The handler always answers: no exception escapes it. *)
Lemma Route_POST_responds (w : World) :
  exists r t, Route.POST w = (Resolved r, t).
Proof.
  rewrite Route_POST_phases.
  destruct (Route.POST_text w []) as [[text|r|] tr]; eauto.
  destruct (Route.POST_reply w text tr) as [[a|r|] t] eqn:Hr; eauto.
  apply Route_POST_reply_inv in Hr. destruct Hr as [Hn _]. now destruct (Hn a).
Qed.

(** A 200 response is the one of line 129, built from an extracted text
    and a completion. *)
Lemma Route_POST_200_inv (w : World) (r : Response) (t : Trace) :
  Route.POST w = (Resolved r, t) -> status r = 200%N ->
  exists text tr choices counters req,
    Route.POST_text w [] = (Normal text, tr) /\
    too_short text = false /\
    chat_create w = Resolved choices /\
    filter_counters (parse_or_empty (first_content choices)) = Some counters /\
    r = Route_ok (parse_or_empty (first_content choices)) counters text /\
    is_review_request Route.system (slice0 50000 text) req /\
    t = tr ++ [EvChatCreate req].
Proof.
  rewrite Route_POST_phases.
  destruct (Route.POST_text w []) as [[text|r'|] tr] eqn:Ht.
  - destruct (Route.POST_reply w text tr) as [[a|r'|] t'] eqn:Hr.
    + discriminate.
    + intros [= <- <-] H200.
      apply Route_POST_reply_inv in Hr. destruct Hr as (_ & _ & Hr).
      destruct (Hr r' eq_refl H200) as (Hs & choices & counters & req & H).
      exists text, tr, choices, counters, req. tauto.
    + intros [= <- <-]. discriminate.
  - intros [= <- <-] H200.
    apply Route_POST_text_inv in Ht. destruct Ht as [_ Ht].
    destruct (Ht r' eq_refl) as [Hs _]. rewrite H200 in Hs.
    simpl in Hs. repeat (destruct Hs as [Hs|Hs]; [discriminate|]). contradiction.
  - intros [= <- <-]. discriminate.
Qed.

(** Once a long enough text is extracted and the completion's counters
    can be filtered, the handler answers 200. *)
Lemma Route_POST_200 (w : World) (text : jsstring) (tr : Trace)
    (choices : list Choice) (counters : list Value) :
  Route.POST_text w [] = (Normal text, tr) ->
  too_short text = false ->
  new_OpenAI w = Resolved tt ->
  chat_create w = Resolved choices ->
  filter_counters (parse_or_empty (first_content choices)) = Some counters ->
  exists req,
    is_review_request Route.system (slice0 50000 text) req /\
    Route.POST w =
      (Resolved (Route_ok (parse_or_empty (first_content choices)) counters text),
       tr ++ [EvChatCreate req]).
Proof.
  intros Ht Hs Hk Hc Hf.
  destruct (Route_POST_reply_ok w text tr Hs Hk Hc Hf) as (req & Hreq & Hr).
  exists req. split; [assumption|].
  rewrite Route_POST_phases, Ht, Hr. reflexivity.
Qed.

End RouteFacts.

(** ** The two handlers side by side *)

Section Agreement.
Context {E : Engine}.

Lemma Cors_POST_phases (w : World) :
  Cors.POST w =
    match Cors.POST_text w [] with
    | (Normal text, tr) =>
        match Cors.POST_reply w text tr with
        | (Returned r, t) => (Resolved r, t)
        | (Normal _, t) => (Rejected, t)
        | (Thrown, t) => (Resolved Cors_500, t ++ [EvConsoleError (js "/api/review error")])
        end
    | (Returned r, tr) => (Resolved r, tr)
    | (Thrown, tr) => (Resolved Cors_500, tr ++ [EvConsoleError (js "/api/review error")])
    end.
Proof.
  unfold Cors.POST. unfold_m.
  destruct (Cors.POST_text w []) as [[text|r|] tr]; try reflexivity.
  destruct (Cors.POST_reply w text tr) as [[a|r|] t]; reflexivity.
Qed.

Ltac agree_now :=
  cbv beta iota delta [agree fst]; repeat split; reflexivity.

Lemma POST_text_agree (w : World) (t1 t2 : Trace) :
  agree (fst (Route.POST_text w t1)) (fst (Cors.POST_text w t2)).
Proof.
  unfold Route.POST_text, Cors.POST_text.
  unfold Route.MAX_BYTES, Cors.MAX_BYTES, Route.allowed, Cors.allowed,
    Route.looksLikePDF, Cors.looksLikePDF, Route.looksLikeDOCX, Cors.looksLikeDOCX.
  unfold_m.
  destruct (formData w) as [file|]; [|agree_now].
  destruct (entry_falsy file); [agree_now|].
  destruct (match entry_size file with Some n => _ | None => _ end); [agree_now|].
  destruct (opt_truthy (entry_name file) && _); [agree_now|].
  destruct (entry_arrayBuffer file) as [buf|]; [|agree_now].
  destruct (_ || _).
  { destruct (pdfParse w); agree_now. }
  destruct (_ || _).
  { destruct (extractRawText w); agree_now. }
  destruct (pdfParse w) as [out|]; [destruct (str_falsy (or_empty out))|cbn [str_falsy]];
    try destruct (extractRawText w); agree_now.
Qed.

Lemma POST_reply_agree (w : World) (text : jsstring) (t1 t2 : Trace) :
  agree (fst (Route.POST_reply w text t1)) (fst (Cors.POST_reply w text t2)).
Proof.
  unfold Route.POST_reply, Cors.POST_reply.
  unfold Route.TEXT_LIMIT, Cors.TEXT_LIMIT. unfold_m.
  destruct (_ || _); [agree_now|].
  destruct (new_OpenAI w) as [[]|]; [|agree_now].
  destruct (chat_create w) as [choices|]; [|agree_now].
  destruct (filterM _ _); agree_now.
Qed.

Lemma POST_text_same_calls (w : World) (t : Trace) :
  snd (Route.POST_text w t) = snd (Cors.POST_text w t).
Proof.
  unfold Route.POST_text, Cors.POST_text.
  unfold Route.MAX_BYTES, Cors.MAX_BYTES, Route.allowed, Cors.allowed,
    Route.looksLikePDF, Cors.looksLikePDF, Route.looksLikeDOCX, Cors.looksLikeDOCX.
  unfold_m.
  destruct (formData w) as [file|]; [|reflexivity].
  destruct (entry_falsy file); [reflexivity|].
  destruct (match entry_size file with Some n => _ | None => _ end); [reflexivity|].
  destruct (opt_truthy (entry_name file) && _); [reflexivity|].
  destruct (entry_arrayBuffer file) as [buf|]; [|reflexivity].
  destruct (_ || _).
  { destruct (pdfParse w); reflexivity. }
  destruct (_ || _).
  { destruct (extractRawText w); reflexivity. }
  destruct (pdfParse w) as [out|]; [destruct (str_falsy (or_empty out))|cbn [str_falsy]];
    try destruct (extractRawText w); reflexivity.
Qed.

Lemma POST_reply_same_calls (w : World) (text : jsstring) (t : Trace) :
  map forget_system (snd (Route.POST_reply w text t))
    = map forget_system (snd (Cors.POST_reply w text t)).
Proof.
  unfold Route.POST_reply, Cors.POST_reply.
  unfold Route.TEXT_LIMIT, Cors.TEXT_LIMIT. unfold_m.
  destruct (_ || _); [reflexivity|].
  destruct (new_OpenAI w) as [[]|]; [|reflexivity].
  destruct (chat_create w) as [choices|];
    [destruct (filterM _ _)|]; cbn [snd]; rewrite !map_app; reflexivity.
Qed.

(** The two handlers answer every request with the same status and the
    same body, after the same calls. *)
Lemma POST_agree (w : World) :
  exists r1 t1 r2 t2,
    Route.POST w = (Resolved r1, t1) /\ Cors.POST w = (Resolved r2, t2) /\
    status r1 = status r2 /\ body r1 = body r2 /\ headers_as_written r1 r2 /\
    map forget_system t1 = map forget_system t2.
Proof.
  rewrite Route_POST_phases, Cors_POST_phases.
  pose proof (POST_text_agree w [] []) as Ht.
  pose proof (POST_text_same_calls w []) as Hc.
  destruct (Route.POST_text w []) as [[text|r1|] tr1],
           (Cors.POST_text w []) as [[text'|r2|] tr2];
    cbv beta iota delta [agree fst] in Ht; try contradiction;
    cbn [snd] in Hc; subst tr2.
  - subst text'.
    pose proof (POST_reply_agree w text tr1 tr1) as Hr.
    pose proof (POST_reply_same_calls w text tr1) as Hrc.
    pose proof (Route_POST_reply_inv w text tr1) as Hn.
    destruct (Route.POST_reply w text tr1) as [[a|r1|] t1],
             (Cors.POST_reply w text tr1) as [[a'|r2|] t2];
      cbv beta iota delta [agree fst] in Hr; try contradiction;
      cbn [snd] in Hrc.
    + destruct (Hn _ _ eq_refl) as [Hn' _]. now destruct (Hn' a).
    + do 4 eexists. repeat split; try reflexivity; solve [apply Hr | exact Hrc].
    + do 4 eexists. repeat split; try reflexivity.
      rewrite !map_app, Hrc. reflexivity.
  - do 4 eexists. repeat split; try reflexivity; apply Ht.
  - do 4 eexists. repeat split; reflexivity.
Qed.

End Agreement.

(** ** Normalisation *)

Section Normalisation.
Context {E : Engine}.

Ltac name_fields :=
  repeat match goal with
         | |- context [Route.s_cleanStr ?x] =>
             let s := fresh "s" in
             generalize (Route.s_cleanStr x); intro s
         end.

(** C3. For every input value, [s_cleanStr] returns the string itself on
    a string, the empty string on [null] and [undefined], and on every
    other value its string form, [String(input)]: the decimal print of a
    number, [true] or [false] for a boolean, the joined elements of an
    array, [[object Object]] for an object; the empty string only stands in
    when [String] throws.  So every mandatory field of a normalised
    snapshot is a string holding the cleaned input field, and is never
    [null]. *)
Theorem clean_string_never_null (v input : Value) (s : jsstring) (n : Num)
    (b : bool) :
  Route.s_cleanStr (JStr s) = s /\
  Route.s_cleanStr JNull = [] /\
  Route.s_cleanStr JUndefined = [] /\
  (ToString v = Some (Route.s_cleanStr v) \/ Route.s_cleanStr v = []) /\
  Route.s_cleanStr (JNum n) = Number_toString n /\
  Route.s_cleanStr (JBool b) = (if b then js "true" else js "false") /\
  Route.s_cleanStr (JArr [JStr s; JNull; JNum n])
    = s ++ js "," ++ js "," ++ Number_toString n /\
  Route.s_cleanStr (JObj [(js "label", JStr s)]) = js "[object Object]" /\
  (forall x, ToString v = Some x -> v <> JNull -> v <> JUndefined ->
             Route.s_cleanStr v = x) /\
  (ToString v = None -> Route.s_cleanStr v = []) /\
  Forall (fun k =>
            getProp (Route.s_normalizeSnapshot input) k
              = JStr (Route.s_cleanStr (getProp input k)) /\
            getProp (Route.s_normalizeSnapshot input) k <> JNull)
         mandatory_fields.
Proof.
  split; [reflexivity|]. split; [reflexivity|]. split; [reflexivity|].
  split.
  { destruct v as [| |b'|n'|x|xs|props]; simpl; auto.
    - destruct b'; auto.
    - match goal with |- context [option_map ?f ?o] => destruct (option_map f o) end; auto.
    - destruct (lookup (js "toString") props); auto. }
  split; [reflexivity|]. split; [now destruct b|].
  split; [reflexivity|]. split; [reflexivity|].
  split.
  { intros x Hx Hnull Hundef.
    destruct v as [| |b'|n'|y|xs|props];
      try (now destruct Hnull); try (now destruct Hundef);
      try (simpl in Hx; simpl; congruence);
      match goal with
      | |- Route.s_cleanStr ?u = _ =>
          change (Route.s_cleanStr u)
            with (match ToString u with Some s0 => s0 | None => [] end)
      end; rewrite Hx; reflexivity. }
  split.
  { intros Hx. destruct v as [| |b'|n'|y|xs|props];
      try discriminate Hx; try (destruct b'; discriminate Hx);
      match goal with
      | |- Route.s_cleanStr ?u = _ =>
          change (Route.s_cleanStr u)
            with (match ToString u with Some s0 => s0 | None => [] end)
      end; rewrite Hx; reflexivity. }
  repeat constructor; try reflexivity; discriminate.
Qed.

(** The normaliser of the page is the one of the route. *)
Lemma Page_normalizeSnapshot_same (s : Value) :
  Page.normalizeSnapshot s = Route.s_normalizeSnapshot s.
Proof. reflexivity. Qed.

Lemma snapshot_of_ok (data : Value) (counters : list Value) (text : jsstring) :
  snapshot_of (Route_ok data counters text)
    = Route.s_normalizeSnapshot (nullish (getProp data (js "snapshot")) (JObj [])).
Proof. reflexivity. Qed.

Lemma normalised_fields (input : Value) :
  Forall (fun k => is_string (getProp (Route.s_normalizeSnapshot input) k) = true)
         mandatory_fields /\
  Forall (fun k =>
            getProp (Route.s_normalizeSnapshot input) k = JUndefined \/
            exists s, s <> [] /\ getProp (Route.s_normalizeSnapshot input) k = JStr s)
         optional_fields /\
  (forall k, In k (emitted_keys (Route.s_normalizeSnapshot input)) ->
             is_string (getProp (Route.s_normalizeSnapshot input) k) = true).
Proof.
  unfold Route.s_normalizeSnapshot. cbv zeta. name_fields.
  split; [repeat constructor|].
  split.
  - unfold optional_fields.
    repeat first [apply Forall_nil | apply Forall_cons];
      destruct s5, s6, s7;
      first [ left; reflexivity
            | right; eexists; split; [|reflexivity]; discriminate ].
  - intros k. destruct s5, s6, s7; cbn; intros Hk;
      repeat (destruct Hk as [<-|Hk]; [reflexivity|]); contradiction.
Qed.

End Normalisation.

(** ** The responses of the handler *)

Section Responses.
Context {E : Engine}.

(** What [POST] does once the completion has arrived. *)
Lemma Route_POST_called (w : World) (text : jsstring) (tr : Trace)
    (choices : list Choice) :
  Route.POST_text w [] = (Normal text, tr) ->
  too_short text = false ->
  new_OpenAI w = Resolved tt ->
  chat_create w = Resolved choices ->
  exists req,
    is_review_request Route.system (slice0 50000 text) req /\
    Route.POST w =
      match filter_counters (parse_or_empty (first_content choices)) with
      | Some counters =>
          (Resolved (Route_ok (parse_or_empty (first_content choices)) counters text),
           tr ++ [EvChatCreate req])
      | None =>
          (Resolved Route_500,
           (tr ++ [EvChatCreate req]) ++ [EvConsoleError (js "/api/review error")])
      end.
Proof.
  intros Ht Hs Hk Hc.
  eexists. split; [reflexivity|].
  rewrite Route_POST_phases, Ht.
  unfold Route.POST_reply. fold (too_short text). rewrite Hs.
  unfold_m. rewrite Hk, Hc.
  fold (filter_counters (parse_or_empty (first_content choices))).
  destruct (filter_counters _); reflexivity.
Qed.

Lemma getProp_review_body (snapshot : Value) (risks counters : list Value)
    (rawText : jsstring) :
  getProp (review_body snapshot risks counters rawText) (js "snapshot") = snapshot /\
  getProp (review_body snapshot risks counters rawText) (js "risks") = JArr risks /\
  getProp (review_body snapshot risks counters rawText) (js "counters") = JArr counters /\
  getProp (review_body snapshot risks counters rawText) (js "rawText") = JStr rawText.
Proof. repeat split. Qed.

(** C1, as amended.  In every 200 response the six mandatory snapshot
    fields are strings; each of brandBrief, additionalReqs and billing is
    either a non-empty string or [undefined]; and every snapshot field that
    [JSON.stringify] writes into the body is a string. *)
Theorem snapshot_fields_string_or_absent (w : World) (r : Response) (t : Trace) :
  Route.POST w = (Resolved r, t) -> status r = 200%N ->
  Forall (fun k => is_string (getProp (snapshot_of r) k) = true) mandatory_fields /\
  Forall (fun k =>
            getProp (snapshot_of r) k = JUndefined \/
            exists s, s <> [] /\ getProp (snapshot_of r) k = JStr s)
         optional_fields /\
  (forall k, In k (emitted_keys (snapshot_of r)) ->
             is_string (getProp (snapshot_of r) k) = true).
Proof.
  intros HP H200.
  destruct (Route_POST_200_inv w HP H200)
    as (text & tr & choices & counters & req & _ & _ & _ & _ & -> & _).
  rewrite snapshot_of_ok. apply normalised_fields.
Qed.

(** C2. In every 200 response, of the handler of route.ts and of the one
    of part_000 alike, counters is an array and [/late fee/i] tests false
    on each of its elements. *)
Theorem counters_never_mention_late_fee (w : World) (r : Response) (t : Trace) :
  Route.POST w = (Resolved r, t) \/ Cors.POST w = (Resolved r, t) ->
  status r = 200%N ->
  exists cs,
    getProp (body r) (js "counters") = JArr cs /\
    Forall (fun c => late_fee_test c = Some false) cs.
Proof.
  assert (Hroute : forall r t, Route.POST w = (Resolved r, t) -> status r = 200%N ->
            exists cs, getProp (body r) (js "counters") = JArr cs /\
                       Forall (fun c => late_fee_test c = Some false) cs).
  { clear r t. intros r t HP H200.
    destruct (Route_POST_200_inv w HP H200)
      as (text & tr & choices & counters & req & _ & _ & _ & Hf & -> & _).
    exists counters. split; [reflexivity|].
    apply Forall_forall. intros c Hc.
    apply kept_not_late_fee. exact (proj2 (filterM_sound _ _ Hf c Hc)). }
  intros [HP|HP] H200; [eauto|].
  destruct (POST_agree w) as (r1 & t1 & r2 & t2 & H1 & H2 & Hst & Hb & _ & _).
  rewrite HP in H2. injection H2 as <- <-.
  rewrite <- Hb. apply (Hroute r1 t1 H1). congruence.
Qed.


End Responses.

(** ** From the extracted text to the response *)

Section Pipeline.
Context {E : Engine}.

Lemma normalised_mandatory (input : Value) :
  Forall (fun k => getProp (Route.s_normalizeSnapshot input) k
                     = JStr (Route.s_cleanStr (getProp input k)))
         mandatory_fields.
Proof. repeat constructor. Qed.

Lemma normalised_optional (input : Value) :
  Forall (fun k => getProp (Route.s_normalizeSnapshot input) k
                     = or_undefined (Route.s_cleanStr (getProp input k)))
         optional_fields.
Proof. repeat constructor. Qed.

Lemma clean_of_string (v : Value) :
  is_string v = true -> JStr (Route.s_cleanStr v) = v.
Proof. destruct v; try discriminate. reflexivity. Qed.

Lemma clean_of_optional (v : Value) :
  is_string v || is_null v = true ->
  or_undefined (Route.s_cleanStr v)
    = match v with JStr (c :: s) => JStr (c :: s) | _ => JUndefined end.
Proof. destruct v as [| | | |[|c s]| |]; try discriminate; reflexivity. Qed.

Lemma filter_strings (data : Value) (cs : list Value) :
  getProp data (js "counters") = JArr cs ->
  forallb is_string cs = true ->
  filter_counters data = Some (filter (fun c => negb (mentions_late_fee c)) cs).
Proof.
  intros Hc Hs. unfold filter_counters. rewrite Hc. cbn [array_or_empty].
  apply filterM_total. intros c Hin.
  apply late_fee_test_string. rewrite forallb_forall in Hs. auto.
Qed.

(** C4. When the text reached the model and the reply does not parse, the
    handler still answers 200: the snapshot is the normalisation of the
    empty object, its mandatory fields empty strings and its optional
    fields [undefined], so that only the mandatory ones are written into
    the body; risks and counters are empty, and rawText is the extracted
    text cut at 50,000 code units. *)
Theorem unparseable_reply_gives_empty_review (w : World) (text : jsstring)
    (tr : Trace) (choices : list Choice) :
  Route.POST_text w [] = (Normal text, tr) ->
  too_short text = false ->
  new_OpenAI w = Resolved tt ->
  chat_create w = Resolved choices ->
  JSON_parse (first_content choices) = None ->
  exists r t,
    Route.POST w = (Resolved r, t) /\
    status r = 200%N /\
    body r = review_body (Route.s_normalizeSnapshot (JObj [])) [] [] (slice0 50000 text) /\
    Forall (fun k => getProp (snapshot_of r) k = JStr []) mandatory_fields /\
    Forall (fun k => getProp (snapshot_of r) k = JUndefined) optional_fields /\
    emitted_keys (snapshot_of r) = mandatory_fields.
Proof.
  intros Ht Hs Hk Hc Hp.
  destruct (Route_POST_called w Ht Hs Hk Hc) as (req & _ & HP).
  unfold parse_or_empty in HP. rewrite Hp in HP.
  change (filter_counters (JObj [])) with (Some (@nil Value)) in HP.
  do 2 eexists. split; [exact HP|].
  repeat split; repeat constructor.
Qed.

(** C5, as amended.  When the reply parses to a value of the requested
    schema, the handler answers 200 with: the six mandatory snapshot fields
    as in the reply; each optional field as in the reply when that is a
    non-empty string, and [undefined] when it is [null] or empty; risks as
    in the reply; and counters the reply's counters, in order, without
    those that match [/late fee/i]. *)
Theorem conforming_reply_passes_through (w : World) (text : jsstring)
    (tr : Trace) (choices : list Choice) (data : Value) :
  Route.POST_text w [] = (Normal text, tr) ->
  too_short text = false ->
  new_OpenAI w = Resolved tt ->
  chat_create w = Resolved choices ->
  JSON_parse (first_content choices) = Some data ->
  conforms data = true ->
  exists r t,
    Route.POST w = (Resolved r, t) /\
    status r = 200%N /\
    Forall (fun k => getProp (snapshot_of r) k
                       = getProp (getProp data (js "snapshot")) k)
           mandatory_fields /\
    Forall (fun k => getProp (snapshot_of r) k
                       = match getProp (getProp data (js "snapshot")) k with
                         | JStr (c :: s) => JStr (c :: s)
                         | _ => JUndefined
                         end)
           optional_fields /\
    getProp (body r) (js "risks") = getProp data (js "risks") /\
    exists cs,
      getProp data (js "counters") = JArr cs /\
      getProp (body r) (js "counters")
        = JArr (filter (fun c => negb (mentions_late_fee c)) cs).
Proof.
  intros Ht Hs Hk Hc Hp Hconf.
  destruct (Route_POST_called w Ht Hs Hk Hc) as (req & _ & HP).
  unfold parse_or_empty in HP. rewrite Hp in HP.
  unfold conforms in Hconf.
  destruct data as [| | | | | |props]; try discriminate Hconf.
  destruct (getProp (JObj props) (js "snapshot")) as [| | | | | |sp] eqn:Hsnap;
    try discriminate Hconf.
  destruct (getProp (JObj props) (js "risks")) as [| | | | |risks|] eqn:Hrisks;
    try (rewrite !andb_false_r in Hconf; discriminate Hconf).
  destruct (getProp (JObj props) (js "counters")) as [| | | | |cs|] eqn:Hcs;
    try (rewrite !andb_false_r in Hconf; discriminate Hconf).
  apply andb_true_iff in Hconf. destruct Hconf as [Hconf Hstr].
  apply andb_true_iff in Hconf. destruct Hconf as [Hconf _].
  apply andb_true_iff in Hconf. destruct Hconf as [Hm Ho].
  rewrite (filter_strings _ Hcs Hstr) in HP.
  do 2 eexists. split; [exact HP|].
  split; [reflexivity|].
  rewrite snapshot_of_ok, Hsnap. cbn [nullish].
  rewrite forallb_forall in Hm, Ho.
  repeat split.
  - pose proof (normalised_mandatory (JObj sp)) as Hn.
    rewrite Forall_forall in *. intros k Hin.
    rewrite (Hn k Hin). apply clean_of_string. auto.
  - pose proof (normalised_optional (JObj sp)) as Hn.
    rewrite Forall_forall in *. intros k Hin.
    rewrite (Hn k Hin). apply clean_of_optional. auto.
  - cbn [Route_ok body]. rewrite Hrisks. reflexivity.
  - exists cs. split; reflexivity.
Qed.

(** C6, as amended.  A file of at most 15MB whose name is not empty and
    whose extension is not one of pdf, doc, docx, rtf (in any letter case)
    is answered 415 with an error body, and the form data is all the
    handler has read by then: no extraction is attempted. *)
Theorem unsupported_extension_rejected (w : World) (f : File) :
  formData w = Resolved (EntryFile f) ->
  (size f <= Route.MAX_BYTES)%N ->
  name f <> [] ->
  supported_extension (name f) = false ->
  Route.POST w =
    (Resolved (Route_error
       "Unsupported file type. Please upload a PDF or Word document." 415),
     [EvFormData]).
Proof.
  intros Hf Hsize Hname Hext.
  rewrite <- allowed_by_extension in Hext.
  rewrite Route_POST_phases.
  unfold Route.POST_text. unfold_m. rewrite Hf.
  cbn [entry_falsy entry_size entry_name or_empty opt_truthy].
  apply N.ltb_ge in Hsize. rewrite Hsize, Hext.
  destruct (name f); [contradiction|reflexivity].
Qed.

(** C7. When the text the handler extracted has fewer than 20 code units,
    it answers 422 with an error body, and no chat completion was
    requested. *)
Theorem short_text_unprocessable (w : World) (text : jsstring) (tr : Trace) :
  Route.POST_text w [] = (Normal text, tr) ->
  (List.length text < 20)%nat ->
  Route.POST w =
    (Resolved (Route_error
       "We couldn't extract readable text. Please export to PDF or DOCX and re-upload."
       422), tr) /\
  existsb is_chat tr = false.
Proof.
  intros Ht Hlen. split.
  - rewrite Route_POST_phases, Ht, Route_POST_reply_short; [reflexivity|].
    now apply short_text_rejected.
  - destruct (Route_POST_text_inv w [] Ht) as [(evs & -> & Hevs) _]. exact Hevs.
Qed.


End Pipeline.

(** ** The two implementations *)

Section Equivalence.
Context {E : Engine}.


(** The two prompts are not the same string. *)
Remark system_prompts_differ : Route.system <> Cors.system.
Proof. vm_compute. discriminate. Qed.

End Equivalence.

(** ** The theorems at concrete requests *)

Section Examples.
#[local] Existing Instance Demo.engine.

(** The dev tests of page.tsx. *)
Example dev_test_null_values :
  getProp (getProp (Page.normalizeResult
    (JObj [(js "snapshot", JObj [(js "term", JNull); (js "rate", JNull)])]))
    (js "snapshot")) (js "term") = JStr [].
Proof. reflexivity. Qed.

Example dev_test_missing_values :
  getProp (getProp (Page.normalizeResult (JObj [(js "snapshot", JObj [])]))
    (js "snapshot")) (js "rate") = JStr [].
Proof. reflexivity. Qed.

Example dev_test_non_strings :
  let out := Page.normalizeResult
    (JObj [(js "snapshot", JObj [(js "term", JNum 120%Z); (js "rate", JBool true)])]) in
  getProp (getProp out (js "snapshot")) (js "term") = JStr (js "120") /\
  getProp (getProp out (js "snapshot")) (js "rate") = JStr (js "true").
Proof. split; reflexivity. Qed.

(** The replies as the engine of the examples parses them. *)
Example parse_replies :
  JSON_parse Demo.reply_empty = Some (JObj []) /\
  JSON_parse Demo.reply_full = Some Demo.data_full /\
  JSON_parse Demo.reply_odd_risk = Some Demo.data_odd_risk /\
  JSON_parse Demo.reply_opaque_counter = Some Demo.data_opaque_counter /\
  JSON_parse Demo.reply_prose = None.
Proof. repeat split. Qed.

(** A counter with a [toString] property of its own makes the filter
    throw: the handler logs the error and answers 500. *)
Example opaque_counter_is_a_500 :
  Route.POST Demo.opaque_world
    = (Resolved Route_500,
       Demo.called_trace ++ [EvConsoleError (js "/api/review error")]).
Proof. reflexivity. Qed.

(** A text of 50,010 code units goes to the model, and comes back as
    rawText, cut at 50,000. *)
Example long_text_is_cut :
  match Route.POST Demo.long_world with
  | (Resolved r, [_; _; _; EvChatCreate req]) =>
      (status r =? 200)%N
      && match getProp (body r) (js "rawText"), messages req with
         | JStr raw, [_; (_, user)] =>
             (str_length raw =? 50000)%N
             && str_eqb user (js "Contract text:" ++ LF ++ LF ++ raw)
             && prefix_by N.eqb raw Demo.long_text
         | _, _ => false
         end
  | _ => false
  end = true.
Proof. vm_compute. reflexivity. Qed.

(** C1: the claim fails on the reply [{}]: the response is a 200 whose
    snapshot has no brandBrief. *)
Lemma snapshot_field_can_be_undefined :
  Route.POST Demo.empty_world = (Resolved Demo.empty_response, Demo.called_trace) /\
  status Demo.empty_response = 200%N /\
  getProp (snapshot_of Demo.empty_response) (js "brandBrief") = JUndefined /\
  snapshot_all_strings Demo.empty_response = false.
Proof. repeat split; reflexivity. Qed.

Lemma snapshot_fields_string_or_absent_witness :
  Route.POST Demo.full_world = (Resolved Demo.full_response, Demo.called_trace) /\
  status Demo.full_response = 200%N /\
  Forall (fun k => is_string (getProp (snapshot_of Demo.full_response) k) = true)
         mandatory_fields /\
  Forall (fun k =>
            getProp (snapshot_of Demo.full_response) k = JUndefined \/
            exists s, s <> [] /\ getProp (snapshot_of Demo.full_response) k = JStr s)
         optional_fields /\
  (forall k, In k (emitted_keys (snapshot_of Demo.full_response)) ->
             is_string (getProp (snapshot_of Demo.full_response) k) = true).
Proof.
  split; [reflexivity|].
  split; [reflexivity|].
  apply (@snapshot_fields_string_or_absent Demo.engine Demo.full_world
           Demo.full_response Demo.called_trace).
  - reflexivity.
  - reflexivity.
Defined.

Lemma counters_never_mention_late_fee_witness :
  (Route.POST Demo.full_world = (Resolved Demo.full_response, Demo.called_trace) \/
   Cors.POST Demo.full_world = (Resolved Demo.full_response, Demo.called_trace)) /\
  status Demo.full_response = 200%N /\
  exists cs,
    getProp (body Demo.full_response) (js "counters") = JArr cs /\
    Forall (fun c => late_fee_test c = Some false) cs.
Proof.
  split; [left; reflexivity|].
  split; [reflexivity|].
  apply (@counters_never_mention_late_fee Demo.engine Demo.full_world
           Demo.full_response Demo.called_trace).
  - left. reflexivity.
  - reflexivity.
Defined.

(** C9: the claim fails on the reply [{"risks":[42]}]: the response is a
    200 whose risks hold the number 42. *)
Lemma risks_can_be_malformed :
  Route.POST Demo.odd_world = (Resolved Demo.odd_response, Demo.called_trace) /\
  status Demo.odd_response = 200%N /\
  getProp (body Demo.odd_response) (js "risks") = JArr [JNum 42%Z] /\
  risks_well_formed Demo.odd_response = false.
Proof. repeat split; reflexivity. Qed.


Lemma unparseable_reply_gives_empty_review_witness :
  Route.POST_text Demo.prose_world [] = (Normal Demo.contract_text, Demo.pdf_trace) /\
  too_short Demo.contract_text = false /\
  new_OpenAI Demo.prose_world = Resolved tt /\
  chat_create Demo.prose_world
    = Resolved [{| message_content := Some Demo.reply_prose |}] /\
  JSON_parse (first_content [{| message_content := Some Demo.reply_prose |}]) = None /\
  exists r t,
    Route.POST Demo.prose_world = (Resolved r, t) /\
    status r = 200%N /\
    body r = review_body (Route.s_normalizeSnapshot (JObj [])) [] []
                         (slice0 50000 Demo.contract_text) /\
    Forall (fun k => getProp (snapshot_of r) k = JStr []) mandatory_fields /\
    Forall (fun k => getProp (snapshot_of r) k = JUndefined) optional_fields /\
    emitted_keys (snapshot_of r) = mandatory_fields.
Proof.
  split; [reflexivity|].
  split; [reflexivity|].
  split; [reflexivity|].
  split; [reflexivity|].
  split; [reflexivity|].
  apply (@unparseable_reply_gives_empty_review Demo.engine Demo.prose_world
           Demo.contract_text Demo.pdf_trace
           [{| message_content := Some Demo.reply_prose |}]).
  - reflexivity.
  - reflexivity.
  - reflexivity.
  - reflexivity.
  - reflexivity.
Defined.

(** C5: the claim fails on a reply of the requested schema whose counters
    mention a late fee: the response is a 200 whose counters are not those
    of the reply. *)
Lemma late_fee_counter_dropped :
  JSON_parse Demo.reply_full = Some Demo.data_full /\
  conforms Demo.data_full = true /\
  Route.POST Demo.full_world = (Resolved Demo.full_response, Demo.called_trace) /\
  status Demo.full_response = 200%N /\
  getProp Demo.data_full (js "counters")
    = JArr [JStr (js "Ask for net 15"); JStr (js "Add a Late Fee of 5% per month")] /\
  getProp (body Demo.full_response) (js "counters") = JArr [JStr (js "Ask for net 15")] /\
  getProp (body Demo.full_response) (js "counters")
    <> getProp Demo.data_full (js "counters").
Proof.
  repeat split; try reflexivity.
  lazy. discriminate.
Qed.

Lemma conforming_reply_passes_through_witness :
  Route.POST_text Demo.full_world [] = (Normal Demo.contract_text, Demo.pdf_trace) /\
  too_short Demo.contract_text = false /\
  new_OpenAI Demo.full_world = Resolved tt /\
  chat_create Demo.full_world
    = Resolved [{| message_content := Some Demo.reply_full |}] /\
  JSON_parse (first_content [{| message_content := Some Demo.reply_full |}])
    = Some Demo.data_full /\
  conforms Demo.data_full = true /\
  exists r t,
    Route.POST Demo.full_world = (Resolved r, t) /\
    status r = 200%N /\
    Forall (fun k => getProp (snapshot_of r) k
                       = getProp (getProp Demo.data_full (js "snapshot")) k)
           mandatory_fields /\
    Forall (fun k => getProp (snapshot_of r) k
                       = match getProp (getProp Demo.data_full (js "snapshot")) k with
                         | JStr (c :: s) => JStr (c :: s)
                         | _ => JUndefined
                         end)
           optional_fields /\
    getProp (body r) (js "risks") = getProp Demo.data_full (js "risks") /\
    exists cs,
      getProp Demo.data_full (js "counters") = JArr cs /\
      getProp (body r) (js "counters")
        = JArr (filter (fun c => negb (mentions_late_fee c)) cs).
Proof.
  split; [reflexivity|].
  split; [reflexivity|].
  split; [reflexivity|].
  split; [reflexivity|].
  split; [reflexivity|].
  split; [reflexivity|].
  apply (@conforming_reply_passes_through Demo.engine Demo.full_world
           Demo.contract_text Demo.pdf_trace
           [{| message_content := Some Demo.reply_full |}] Demo.data_full).
  - reflexivity.
  - reflexivity.
  - reflexivity.
  - reflexivity.
  - reflexivity.
  - reflexivity.
Defined.

(** C6: the claim fails on a 16MB file named notes.txt, answered 413,
    and on a file without a name, which is not rejected at all. *)
Lemma unsupported_file_not_always_415 :
  extension (name Demo.big_txt) = Some (js "txt") /\
  supported_extension (name Demo.big_txt) = false /\
  Route.POST Demo.big_world = (Resolved Demo.too_large_response, [EvFormData]) /\
  status Demo.too_large_response = 413%N /\
  extension (name Demo.nameless) = None /\
  supported_extension (name Demo.nameless) = false /\
  Route.POST Demo.nameless_world
    = (Resolved Demo.empty_response,
       [EvFormData; EvArrayBuffer; EvPdfParse []; EvChatCreate Demo.request]) /\
  status Demo.empty_response = 200%N.
Proof. repeat split; reflexivity. Qed.

Lemma unsupported_extension_rejected_witness :
  formData Demo.txt_world = Resolved (EntryFile Demo.small_txt) /\
  (size Demo.small_txt <= Route.MAX_BYTES)%N /\
  name Demo.small_txt <> [] /\
  supported_extension (name Demo.small_txt) = false /\
  Route.POST Demo.txt_world =
    (Resolved (Route_error
       "Unsupported file type. Please upload a PDF or Word document." 415),
     [EvFormData]).
Proof.
  split; [reflexivity|].
  split; [vm_compute; discriminate|].
  split; [vm_compute; discriminate|].
  split; [reflexivity|].
  apply (@unsupported_extension_rejected Demo.engine Demo.txt_world Demo.small_txt).
  - reflexivity.
  - vm_compute. discriminate.
  - vm_compute. discriminate.
  - reflexivity.
Defined.

Lemma short_text_unprocessable_witness :
  Route.POST_text Demo.short_world [] = (Normal (js "Hello"), Demo.pdf_trace) /\
  (List.length (js "Hello") < 20)%nat /\
  Route.POST Demo.short_world =
    (Resolved (Route_error
       "We couldn't extract readable text. Please export to PDF or DOCX and re-upload."
       422), Demo.pdf_trace) /\
  existsb is_chat Demo.pdf_trace = false.
Proof.
  split; [reflexivity|].
  split; [vm_compute; lia|].
  apply (@short_text_unprocessable Demo.engine Demo.short_world (js "Hello")
           Demo.pdf_trace).
  - reflexivity.
  - vm_compute. lia.
Defined.


End Examples.

(** * Further properties *)

(** ** Validation and dispatch of the upload *)

Lemma eqb_lower_ci (q c : N) :
  lower_ascii q = q -> (q =? lower_ascii c)%N = eq_ci q c.
Proof.
  unfold eq_ci, lower_ascii, upper_ascii. intros Hq.
  apply eq_iff_eq_true. rewrite !N.eqb_eq.
  destruct (65 <=? q)%N eqn:Q1, (q <=? 90)%N eqn:Q2,
           (97 <=? q)%N eqn:Q3, (q <=? 122)%N eqn:Q4,
           (65 <=? c)%N eqn:C1, (c <=? 90)%N eqn:C2,
           (97 <=? c)%N eqn:C3, (c <=? 122)%N eqn:C4;
    cbn [andb] in *;
    rewrite ?N.leb_le, ?N.leb_gt in *; lia.
Qed.

Lemma prefix_by_lower (p s : jsstring) :
  Forall (fun q => lower_ascii q = q) p ->
  prefix_by N.eqb p (map lower_ascii s) = prefix_by eq_ci p s.
Proof.
  intros Hp. revert s.
  induction Hp as [|q p Hq Hp IH]; intros [|c s]; simpl; try reflexivity.
  now rewrite IH, eqb_lower_ci.
Qed.

(** Lower-casing the name and comparing equals comparing up to case. *)
Lemma endsWith_lower (s p : jsstring) :
  Forall (fun q => lower_ascii q = q) p ->
  endsWith (toLowerCase s) p = endsWith_ci s p.
Proof.
  intros Hp. unfold endsWith, endsWith_ci, toLowerCase.
  rewrite <- map_rev. apply prefix_by_lower.
  apply Forall_rev. exact Hp.
Qed.

Lemma looksLikePDF_file (f : File) :
  Route.looksLikePDF (Some (name f)) (Some (type f)) = is_pdf f.
Proof.
  unfold Route.looksLikePDF, is_pdf.
  rewrite endsWith_lower by (repeat constructor). reflexivity.
Qed.

Lemma looksLikeDOCX_file (f : File) :
  Route.looksLikeDOCX (Some (name f)) (Some (type f)) = is_word f.
Proof.
  unfold Route.looksLikeDOCX, is_word. cbn [option_map or_empty].
  rewrite !endsWith_lower by (repeat constructor). reflexivity.
Qed.

Section Validation.
Context {E : Engine}.

Lemma doc_test_absorbed (fname mime : option jsstring) :
  Route.looksLikeDOCX fname mime || endsWith_ci (or_empty fname) (js ".doc")
    = Route.looksLikeDOCX fname mime.
Proof.
  unfold Route.looksLikeDOCX.
  destruct fname as [n|]; cbn [option_map or_empty].
  - rewrite !endsWith_lower by (repeat constructor).
    destruct (match mime with Some m => _ | None => _ end),
             (endsWith_ci n (js ".docx")), (endsWith_ci n (js ".doc")); reflexivity.
  - destruct (match mime with Some m => _ | None => _ end); reflexivity.
Qed.

(** X7. The test [/\.doc$/i] of line 86 never decides anything: whenever
    it holds, [looksLikeDOCX] holds already. *)
Theorem doc_test_is_redundant (fname mime : option jsstring) :
  Route.looksLikeDOCX fname mime || endsWith_ci (or_empty fname) (js ".doc")
    = Route.looksLikeDOCX fname mime.
Proof.
  unfold Route.looksLikeDOCX.
  destruct fname as [n|]; cbn [option_map or_empty].
  - rewrite !endsWith_lower by (repeat constructor).
    destruct (match mime with Some m => _ | None => _ end),
             (endsWith_ci n (js ".docx")), (endsWith_ci n (js ".doc")); reflexivity.
  - destruct (match mime with Some m => _ | None => _ end); reflexivity.
Qed.

(** X1. Without a file (no field named file, or an empty text field) the
    handler answers 400, and the form data is all it has read. *)
Theorem missing_file_is_400 (w : World) (e : FormEntry) :
  formData w = Resolved e ->
  e = EntryNull \/ e = EntryString [] ->
  Route.POST w = (Resolved (Route_error "No file provided" 400), [EvFormData]).
Proof.
  intros Hf He. rewrite Route_POST_phases.
  unfold Route.POST_text. unfold_m. rewrite Hf.
  destruct He as [-> | ->]; reflexivity.
Qed.

(** X2. A file of more than 15MB (15,728,640 bytes) is answered 413
    whatever its name and type, before its content is read. *)
Theorem oversized_file_is_413 (w : World) (f : File) :
  formData w = Resolved (EntryFile f) ->
  (15728640 < size f)%N ->
  Route.POST w
    = (Resolved (Route_error "File too large (max 15MB)." 413), [EvFormData]).
Proof.
  intros Hf Hsize. rewrite Route_POST_phases.
  unfold Route.POST_text. unfold_m. rewrite Hf.
  cbn [entry_falsy entry_size].
  change Route.MAX_BYTES with 15728640%N.
  apply N.ltb_lt in Hsize. rewrite Hsize. reflexivity.
Qed.

(** X3. A non-empty text field named file is not a client error for the
    handler: reading its content throws, the error is logged and the
    answer is 500; neither an extractor nor the model is called. *)
Theorem text_field_is_500 (w : World) (s : jsstring) :
  formData w = Resolved (EntryString s) ->
  s <> [] ->
  Route.POST w
    = (Resolved Route_500,
       [EvFormData; EvArrayBuffer; EvConsoleError (js "/api/review error")]).
Proof.
  intros Hf Hs. rewrite Route_POST_phases.
  unfold Route.POST_text. unfold_m. rewrite Hf.
  destruct s; [contradiction|reflexivity].
Qed.

(** Lines 63-92 on a file that passes the size and name checks and whose
    content can be read. *)
Lemma Route_POST_text_file (w : World) (f : File) (buf : Bytes) :
  formData w = Resolved (EntryFile f) ->
  (size f <= 15728640)%N ->
  name f = [] \/ supported_extension (name f) = true ->
  arrayBuffer f = Resolved buf ->
  Route.POST_text w [] =
    if is_pdf f then
      (match pdfParse w with
       | Resolved out => Normal (or_empty out)
       | Rejected => Returned (Route_error
           "Unable to parse PDF. If it's password-protected, export an unlocked copy and re-upload."
           422)
       end, [EvFormData; EvArrayBuffer; EvPdfParse buf])
    else if is_word f then
      (match extractRawText w with
       | Resolved v => Normal (or_empty v)
       | Rejected => Returned (Route_error
           "Unable to read Word file. Try saving as DOCX or PDF and re-upload." 422)
       end, [EvFormData; EvArrayBuffer; EvExtractRawText buf])
    else
      (Normal (fallback_text w), [EvFormData; EvArrayBuffer] ++ fallback_calls w buf).
Proof.
  intros Hf Hsize Hname Hbuf.
  unfold Route.POST_text. unfold_m. rewrite Hf.
  cbn [entry_falsy entry_size entry_name entry_type entry_arrayBuffer
       or_empty opt_truthy].
  change Route.MAX_BYTES with 15728640%N.
  apply N.ltb_ge in Hsize. rewrite Hsize, Hbuf.
  assert (Hok : negb (str_falsy (name f)) && negb (Route.allowed (name f)) = false).
  { rewrite allowed_by_extension.
    destruct Hname as [-> | ->]; [reflexivity|apply andb_false_r]. }
  rewrite Hok.
  rewrite doc_test_absorbed, looksLikePDF_file, looksLikeDOCX_file.
  unfold fallback_text, fallback_calls.
  destruct (is_pdf f); [destruct (pdfParse w); reflexivity|].
  destruct (is_word f); [destruct (extractRawText w); reflexivity|].
  destruct (pdfParse w) as [out|]; [destruct (or_empty out)|];
    cbn [str_falsy]; destruct (extractRawText w); reflexivity.
Qed.

End Validation.

Section Dispatch.
Context {E : Engine}.

(** X4. An accepted file whose type mentions pdf or whose name ends in
    .pdf goes to pdf-parse alone.  The text reviewed is what pdf-parse
    returned; when pdf-parse throws the answer is 422 with the PDF message,
    and when it returns no text the answer is the generic 422: the Word
    extractor is tried in neither case. *)
Theorem pdf_upload_uses_pdf_parse (w : World) (f : File) (buf : Bytes) :
  formData w = Resolved (EntryFile f) ->
  (size f <= 15728640)%N ->
  name f = [] \/ supported_extension (name f) = true ->
  arrayBuffer f = Resolved buf ->
  is_pdf f = true ->
  (forall out, pdfParse w = Resolved out ->
     Route.POST_text w []
       = (Normal (or_empty out), [EvFormData; EvArrayBuffer; EvPdfParse buf])) /\
  (pdfParse w = Rejected ->
     Route.POST w
       = (Resolved (Route_error
            "Unable to parse PDF. If it's password-protected, export an unlocked copy and re-upload."
            422),
          [EvFormData; EvArrayBuffer; EvPdfParse buf])) /\
  (forall out, pdfParse w = Resolved out -> or_empty out = [] ->
     Route.POST w
       = (Resolved (Route_error
            "We couldn't extract readable text. Please export to PDF or DOCX and re-upload."
            422),
          [EvFormData; EvArrayBuffer; EvPdfParse buf])).
Proof.
  intros Hf Hsize Hname Hbuf Hpdf.
  pose proof (@Route_POST_text_file E w f buf Hf Hsize Hname Hbuf) as Ht.
  rewrite Hpdf in Ht.
  repeat split.
  - intros out Hout. rewrite Ht, Hout. reflexivity.
  - intros Hout. rewrite Route_POST_phases, Ht, Hout. reflexivity.
  - intros out Hout Hempty.
    rewrite Route_POST_phases, Ht, Hout, Hempty. reflexivity.
Qed.

(** X5. An accepted file that does not look like a PDF and whose type
    mentions word or whose name ends in .docx or .doc goes to mammoth
    alone; when mammoth throws the answer is 422 with the Word message, and
    pdf-parse is not tried. *)
Theorem word_upload_uses_mammoth (w : World) (f : File) (buf : Bytes) :
  formData w = Resolved (EntryFile f) ->
  (size f <= 15728640)%N ->
  name f = [] \/ supported_extension (name f) = true ->
  arrayBuffer f = Resolved buf ->
  is_pdf f = false ->
  is_word f = true ->
  (forall v, extractRawText w = Resolved v ->
     Route.POST_text w []
       = (Normal (or_empty v), [EvFormData; EvArrayBuffer; EvExtractRawText buf])) /\
  (extractRawText w = Rejected ->
     Route.POST w
       = (Resolved (Route_error
            "Unable to read Word file. Try saving as DOCX or PDF and re-upload." 422),
          [EvFormData; EvArrayBuffer; EvExtractRawText buf])).
Proof.
  intros Hf Hsize Hname Hbuf Hpdf Hword.
  pose proof (@Route_POST_text_file E w f buf Hf Hsize Hname Hbuf) as Ht.
  rewrite Hpdf, Hword in Ht.
  split.
  - intros v Hv. rewrite Ht, Hv. reflexivity.
  - intros Hv. rewrite Route_POST_phases, Ht, Hv. reflexivity.
Qed.

(** X6. An accepted file that looks like neither (an .rtf, say) is tried
    with pdf-parse first and with mammoth only when pdf-parse threw or
    gave no text.  A failing extractor is not an error here: the text is
    the first non-empty result, and when there is none the answer is the
    generic 422. *)
Theorem other_upload_tries_both (w : World) (f : File) (buf : Bytes) :
  formData w = Resolved (EntryFile f) ->
  (size f <= 15728640)%N ->
  name f = [] \/ supported_extension (name f) = true ->
  arrayBuffer f = Resolved buf ->
  is_pdf f = false ->
  is_word f = false ->
  Route.POST_text w []
    = (Normal (fallback_text w),
       [EvFormData; EvArrayBuffer] ++ fallback_calls w buf) /\
  (fallback_text w = [] ->
     Route.POST w
       = (Resolved (Route_error
            "We couldn't extract readable text. Please export to PDF or DOCX and re-upload."
            422),
          [EvFormData; EvArrayBuffer; EvPdfParse buf; EvExtractRawText buf])).
Proof.
  intros Hf Hsize Hname Hbuf Hpdf Hword.
  pose proof (@Route_POST_text_file E w f buf Hf Hsize Hname Hbuf) as Ht.
  rewrite Hpdf, Hword in Ht.
  split; [exact Ht|].
  intros Hempty. rewrite Route_POST_phases, Ht, Hempty.
  unfold fallback_text, fallback_calls in *.
  destruct (pdfParse w) as [out|]; [|reflexivity].
  destruct (or_empty out); [reflexivity|discriminate Hempty].
Qed.

End Dispatch.

(** ** The completion and the answer *)

Section Answer.
Context {E : Engine}.

Lemma filterM_exact (p : Value -> option bool) (xs ys : list Value) :
  filterM p xs = Some ys ->
  ys = filter (fun x => match p x with Some b => b | None => false end) xs /\
  Forall (fun x => p x <> None) xs.
Proof.
  revert ys. induction xs as [|x xs IH]; simpl; intros ys H.
  - injection H as <-. split; constructor.
  - destruct (p x) as [b|] eqn:Hp; [|discriminate].
    destruct (filterM p xs) as [zs|]; [|discriminate].
    injection H as <-. destruct (IH zs eq_refl) as [-> Hall].
    split; [now destruct b|].
    constructor; [congruence|assumption].
Qed.

Lemma filterM_fails (p : Value -> option bool) (xs : list Value) (x : Value) :
  In x xs -> p x = None -> filterM p xs = None.
Proof.
  induction xs as [|y xs IH]; simpl; [contradiction|].
  intros [->|Hin] Hp.
  - now rewrite Hp.
  - destruct (p y); [|reflexivity]. now rewrite (IH Hin Hp).
Qed.

Lemma no_chat_filter (t : Trace) :
  existsb is_chat t = false -> filter is_chat t = [].
Proof.
  induction t as [|e t IH]; simpl; [reflexivity|].
  destruct (is_chat e); [discriminate|exact IH].
Qed.

(** Lines 63-92 read the form data first and never call the model. *)
Lemma Route_POST_text_trace (w : World) (t : Trace) (c : Completion jsstring) :
  Route.POST_text w [] = (c, t) ->
  exists rest, t = EvFormData :: rest /\ existsb is_chat rest = false.
Proof.
  unfold Route.POST_text. unfold_m.
  destruct (formData w) as [file|]; [|intros [= <- <-]; now exists []].
  destruct (entry_falsy file); [intros [= <- <-]; now exists []|].
  destruct (match entry_size file with Some n => _ | None => _ end);
    [intros [= <- <-]; now exists []|].
  destruct (opt_truthy (entry_name file) && _); [intros [= <- <-]; now exists []|].
  destruct (entry_arrayBuffer file) as [buf|];
    [|intros [= <- <-]; now exists [EvArrayBuffer]].
  destruct (Route.looksLikePDF _ _).
  { destruct (pdfParse w); intros [= <- <-];
      now exists [EvArrayBuffer; EvPdfParse buf]. }
  destruct (Route.looksLikeDOCX _ _ || _).
  { destruct (extractRawText w); intros [= <- <-];
      now exists [EvArrayBuffer; EvExtractRawText buf]. }
  destruct (pdfParse w) as [out|]; [destruct (str_falsy (or_empty out))|cbn [str_falsy]];
    try destruct (extractRawText w);
    intros [= <- <-];
    first [ now exists [EvArrayBuffer; EvPdfParse buf; EvExtractRawText buf]
          | now exists [EvArrayBuffer; EvPdfParse buf] ].
Qed.

(** Lines 93-132 make at most one call, to the model, and answer 200 only
    after it. *)
Lemma Route_POST_reply_trace (w : World) (text : jsstring) (t0 t : Trace)
    (c : Completion Response) :
  Route.POST_reply w text t0 = (c, t) ->
  (t = t0 /\ forall r, c = Returned r -> status r = 422%N) \/
  (exists req, t = t0 ++ [EvChatCreate req] /\
               forall r, c = Returned r -> status r = 200%N).
Proof.
  unfold Route.POST_reply.
  destruct (_ || _).
  { unfold_m. intros [= <- <-]. left. split; [reflexivity|]. now intros r [= <-]. }
  unfold_m. destruct (new_OpenAI w) as [[]|].
  2:{ intros [= <- <-]. left. split; [reflexivity|discriminate]. }
  destruct (chat_create w) as [choices|].
  2:{ intros [= <- <-]. right. eexists. split; [reflexivity|discriminate]. }
  destruct (filterM _ _); intros [= <- <-]; right; eexists;
    (split; [reflexivity|]); [now intros r [= <-]|discriminate].
Qed.

Lemma Route_answers (w : World) :
  exists r t,
    Route.POST w = (Resolved r, t) /\
    In (status r) [200; 400; 413; 415; 422; 500]%N /\
    (status r = 200%N \/ exists msg, body r = JObj [(js "error", JStr msg)]).
Proof.
  rewrite Route_POST_phases.
  destruct (Route.POST_text w []) as [[text|r|] tr] eqn:Ht.
  - destruct (Route.POST_reply w text tr) as [[a|r|] t] eqn:Hr.
    + destruct (Route_POST_reply_inv w text tr Hr) as [Hn _]. now destruct (Hn a).
    + exists r, t. split; [reflexivity|].
      destruct (Route_POST_reply_inv w text tr Hr) as (_ & Hst & H200).
      destruct (Hst r eq_refl) as [Hs|Hs]; rewrite Hs.
      * split; [simpl; auto|now left].
      * split; [simpl; auto 6|]. right.
        unfold Route.POST_reply in Hr.
        destruct (_ || _) in Hr.
        -- unfold_m. injection Hr as <- _. eexists. reflexivity.
        -- unfold_m. destruct (new_OpenAI w) as [[]|]; [|discriminate].
           destruct (chat_create w); [|discriminate].
           destruct (filterM _ _); [|discriminate].
           injection Hr as <- _. discriminate Hs.
    + do 2 eexists. split; [reflexivity|].
      split; [simpl; auto 7|]. right. eexists. reflexivity.
  - exists r, tr. split; [reflexivity|].
    destruct (Route_POST_text_inv w [] Ht) as [_ Hr].
    destruct (Hr r eq_refl) as [Hs Hb].
    split; [|now right].
    simpl in Hs |- *. intuition.
  - do 2 eexists. split; [reflexivity|].
    split; [simpl; auto 7|]. right. eexists. reflexivity.
Qed.

(** X8. Every request is answered, with one of the statuses 200, 400,
    413, 415, 422, 500; an answer other than 200 carries an object with a
    single string property error. *)
Theorem every_request_is_answered (w : World) :
  exists r t,
    Route.POST w = (Resolved r, t) /\
    In (status r) [200; 400; 413; 415; 422; 500]%N /\
    (status r = 200%N \/ exists msg, body r = JObj [(js "error", JStr msg)]).
Proof.
  rewrite Route_POST_phases.
  destruct (Route.POST_text w []) as [[text|r|] tr] eqn:Ht.
  - destruct (Route.POST_reply w text tr) as [[a|r|] t] eqn:Hr.
    + destruct (Route_POST_reply_inv w text tr Hr) as [Hn _]. now destruct (Hn a).
    + exists r, t. split; [reflexivity|].
      destruct (Route_POST_reply_inv w text tr Hr) as (_ & Hst & H200).
      destruct (Hst r eq_refl) as [Hs|Hs]; rewrite Hs.
      * split; [simpl; auto|now left].
      * split; [simpl; auto 6|]. right.
        unfold Route.POST_reply in Hr.
        destruct (_ || _) in Hr.
        -- unfold_m. injection Hr as <- _. eexists. reflexivity.
        -- unfold_m. destruct (new_OpenAI w) as [[]|]; [|discriminate].
           destruct (chat_create w); [|discriminate].
           destruct (filterM _ _); [|discriminate].
           injection Hr as <- _. discriminate Hs.
    + do 2 eexists. split; [reflexivity|].
      split; [simpl; auto 7|]. right. eexists. reflexivity.
  - exists r, tr. split; [reflexivity|].
    destruct (Route_POST_text_inv w [] Ht) as [_ Hr].
    destruct (Hr r eq_refl) as [Hs Hb].
    split; [|now right].
    simpl in Hs |- *. intuition.
  - do 2 eexists. split; [reflexivity|].
    split; [simpl; auto 7|]. right. eexists. reflexivity.
Qed.

(** X9. The handler reads the form data before anything else and asks
    the model at most once; an answer in the 400s was given without asking
    the model, and a 200 after asking it exactly once. *)
Theorem model_is_asked_at_most_once (w : World) :
  exists r t rest,
    Route.POST w = (Resolved r, t) /\
    t = EvFormData :: rest /\
    (List.length (filter is_chat t) <= 1)%nat /\
    ((400 <= status r < 500)%N -> existsb is_chat t = false) /\
    (status r = 200%N -> List.length (filter is_chat t) = 1%nat).
Proof.
  rewrite Route_POST_phases.
  destruct (Route.POST_text w []) as [[text|r|] tr] eqn:Ht;
    destruct (Route_POST_text_trace w Ht) as (rest & -> & Hrest).
  - destruct (Route.POST_reply w text (EvFormData :: rest)) as [[a|r|] t] eqn:Hr.
    + destruct (Route_POST_reply_inv w text _ Hr) as [Hn _]. now destruct (Hn a).
    + destruct (Route_POST_reply_trace w text _ Hr) as [[-> Hs]|(req & -> & Hs)];
        specialize (Hs r eq_refl).
      * exists r, (EvFormData :: rest), rest. repeat split.
        -- cbn. rewrite (no_chat_filter _ Hrest). simpl. lia.
        -- intros _. exact Hrest.
        -- intros H200. rewrite Hs in H200. discriminate.
      * exists r, (EvFormData :: rest ++ [EvChatCreate req]), (rest ++ [EvChatCreate req]).
        repeat split.
        -- cbn. rewrite filter_app, (no_chat_filter _ Hrest). simpl. lia.
        -- rewrite Hs. lia.
        -- intros _. cbn. rewrite filter_app, (no_chat_filter _ Hrest). reflexivity.
    + destruct (Route_POST_reply_trace w text _ Hr) as [[-> _]|(req & -> & _)].
      * do 3 eexists. split; [reflexivity|]. split; [reflexivity|].
        repeat split.
        -- cbn. rewrite filter_app, (no_chat_filter _ Hrest). simpl. lia.
        -- cbn. lia.
        -- discriminate.
      * do 3 eexists. split; [reflexivity|].
        split; [rewrite <- !app_comm_cons; reflexivity|].
        repeat split.
        -- cbn. rewrite !filter_app, (no_chat_filter _ Hrest). simpl. lia.
        -- cbn. lia.
        -- discriminate.
  - exists r, (EvFormData :: rest), rest. repeat split.
    + cbn. rewrite (no_chat_filter _ Hrest). simpl. lia.
    + intros _. exact Hrest.
    + intros H200. destruct (Route_POST_text_inv w [] Ht) as [_ Hr].
      destruct (Hr r eq_refl) as [Hs _]. rewrite H200 in Hs.
      simpl in Hs. repeat (destruct Hs as [Hs|Hs]; [discriminate|]). contradiction.
  - do 3 eexists. split; [reflexivity|]. split; [reflexivity|].
    repeat split.
    + cbn. rewrite filter_app, (no_chat_filter _ Hrest). simpl. lia.
    + cbn. lia.
    + discriminate.
Qed.

End Answer.

Section Completion.
Context {E : Engine}.


(** X11. When the reply's counters hold an element that cannot be
    converted to a string (an object with a toString property of its own),
    the filter throws: the error is logged and the answer is 500, whatever
    else the reply holds. *)
Theorem unconvertible_counter_is_500 (w : World) (text : jsstring) (tr : Trace)
    (choices : list Choice) (c : Value) :
  Route.POST_text w [] = (Normal text, tr) ->
  too_short text = false ->
  new_OpenAI w = Resolved tt ->
  chat_create w = Resolved choices ->
  In c (array_or_empty
          (getProp (parse_or_empty (first_content choices)) (js "counters"))) ->
  ToString c = None ->
  exists req,
    Route.POST w
      = (Resolved Route_500,
         tr ++ [EvChatCreate req; EvConsoleError (js "/api/review error")]).
Proof.
  intros Ht Hs Hk Hc Hin Hstr.
  destruct (Route_POST_called w Ht Hs Hk Hc) as (req & _ & HP).
  exists req. rewrite HP.
  unfold filter_counters.
  rewrite (filterM_fails _ _ c Hin) by (unfold late_fee_test; now rewrite Hstr).
  rewrite <- app_assoc. reflexivity.
Qed.

(** X12. When the text is long enough but the client cannot be built or
    the completion fails, the error is logged and the answer is 500. *)
Theorem model_failure_is_500 (w : World) (text : jsstring) (tr : Trace) :
  Route.POST_text w [] = (Normal text, tr) ->
  too_short text = false ->
  (new_OpenAI w = Rejected ->
     Route.POST w
       = (Resolved Route_500, tr ++ [EvConsoleError (js "/api/review error")])) /\
  (new_OpenAI w = Resolved tt -> chat_create w = Rejected ->
     exists req,
       is_review_request Route.system (slice0 50000 text) req /\
       Route.POST w
         = (Resolved Route_500,
            tr ++ [EvChatCreate req; EvConsoleError (js "/api/review error")])).
Proof.
  intros Ht Hs. split.
  - intros Hk. rewrite Route_POST_phases, Ht.
    unfold Route.POST_reply. fold (too_short text). rewrite Hs.
    unfold_m. rewrite Hk. reflexivity.
  - intros Hk Hc. eexists. split; [reflexivity|].
    rewrite Route_POST_phases, Ht.
    unfold Route.POST_reply. fold (too_short text). rewrite Hs.
    unfold_m. rewrite Hk, Hc. rewrite <- app_assoc. reflexivity.
Qed.

(** X13. A reply that parses to anything but an object (null, a number,
    a string, an array) is answered like the reply [{}]: 200 with the
    normalisation of the empty object, no risks and no counters. *)
Theorem non_object_reply_is_empty_review (w : World) (text : jsstring)
    (tr : Trace) (choices : list Choice) (data : Value) :
  Route.POST_text w [] = (Normal text, tr) ->
  too_short text = false ->
  new_OpenAI w = Resolved tt ->
  chat_create w = Resolved choices ->
  JSON_parse (first_content choices) = Some data ->
  is_plain_object data = false ->
  exists req,
    Route.POST w
      = (Resolved (Route_ok (JObj []) [] text), tr ++ [EvChatCreate req]) /\
    body (Route_ok (JObj []) [] text)
      = review_body (Route.s_normalizeSnapshot (JObj [])) [] [] (slice0 50000 text).
Proof.
  intros Ht Hs Hk Hc Hp Hobj.
  destruct (Route_POST_called w Ht Hs Hk Hc) as (req & _ & HP).
  exists req. split; [|reflexivity].
  rewrite HP. unfold parse_or_empty. rewrite Hp.
  destruct data; try discriminate Hobj; reflexivity.
Qed.

(** X14. A completion without choices, or whose first message has no
    content, is read as the text [{}]: with an engine that parses [{}] to
    the empty object, the answer is the 200 of the empty review. *)
Theorem missing_content_is_empty_review (w : World) (text : jsstring)
    (tr : Trace) (choices : list Choice) :
  Route.POST_text w [] = (Normal text, tr) ->
  too_short text = false ->
  new_OpenAI w = Resolved tt ->
  chat_create w = Resolved choices ->
  choices = [] \/ (exists rest, choices = {| message_content := None |} :: rest) ->
  JSON_parse (js "{}") = Some (JObj []) ->
  exists req,
    Route.POST w
      = (Resolved (Route_ok (JObj []) [] text), tr ++ [EvChatCreate req]).
Proof.
  intros Ht Hs Hk Hc Hch Hp.
  destruct (Route_POST_called w Ht Hs Hk Hc) as (req & _ & HP).
  exists req. rewrite HP.
  assert (Hfc : first_content choices = js "{}")
    by (destruct Hch as [->|[rest ->]]; reflexivity).
  unfold parse_or_empty. rewrite Hfc, Hp. reflexivity.
Qed.

(** X15. In every 200 response rawText is a string of at least 20 and at
    most 50,000 code units. *)
Theorem rawText_is_bounded (w : World) (r : Response) (t : Trace) :
  Route.POST w = (Resolved r, t) -> status r = 200%N ->
  exists raw,
    getProp (body r) (js "rawText") = JStr raw /\
    (20 <= str_length raw <= 50000)%N.
Proof.
  intros HP H200.
  destruct (Route_POST_200_inv w HP H200)
    as (text & tr & choices & counters & req & _ & Hs & _ & _ & -> & _).
  exists (slice0 50000 text). split; [reflexivity|].
  unfold too_short in Hs. apply orb_false_iff in Hs. destruct Hs as [_ Hs].
  apply N.ltb_ge in Hs.
  pose proof (trim_length text) as Htrim.
  unfold str_length, slice0 in *. rewrite length_firstn. lia.
Qed.

End Completion.

(** ** The normalisers, on the server and on the page *)

Section Normalisers.
Context {E : Engine}.

Ltac name_cleaned input :=
  generalize (Route.s_cleanStr (getProp input (js "parties")));
  generalize (Route.s_cleanStr (getProp input (js "dates")));
  generalize (Route.s_cleanStr (getProp input (js "term")));
  generalize (Route.s_cleanStr (getProp input (js "rate")));
  generalize (Route.s_cleanStr (getProp input (js "deliverables")));
  generalize (Route.s_cleanStr (getProp input (js "usage")));
  generalize (Route.s_cleanStr (getProp input (js "brandBrief")));
  generalize (Route.s_cleanStr (getProp input (js "additionalReqs")));
  generalize (Route.s_cleanStr (getProp input (js "billing")));
  intros billing additionalReqs brandBrief usage deliverables rate term dates parties.

Lemma snapshot_idempotent (input : Value) :
  Route.s_normalizeSnapshot (Route.s_normalizeSnapshot input)
    = Route.s_normalizeSnapshot input.
Proof.
  unfold Route.s_normalizeSnapshot at 2 3. cbv zeta. name_cleaned input.
  destruct brandBrief, additionalReqs, billing; reflexivity.
Qed.

(** X16. Normalising a snapshot twice is normalising it once, and the
    normaliser of the page does to a snapshot what the one of the route
    does. *)
Theorem normalising_twice_is_once (input : Value) :
  Route.s_normalizeSnapshot (Route.s_normalizeSnapshot input)
    = Route.s_normalizeSnapshot input /\
  Page.normalizeSnapshot (Route.s_normalizeSnapshot input)
    = Route.s_normalizeSnapshot input /\
  Page.normalizeSnapshot input = Route.s_normalizeSnapshot input.
Proof.
  repeat split; try reflexivity; apply snapshot_idempotent.
Qed.

Lemma written_snapshot_restored (input : Value) :
  Page.normalizeSnapshot (written (Route.s_normalizeSnapshot input))
    = Route.s_normalizeSnapshot input.
Proof.
  unfold Route.s_normalizeSnapshot. cbv zeta. name_cleaned input.
  destruct brandBrief, additionalReqs, billing; reflexivity.
Qed.

(** A snapshot of the route holds strings and [undefined] only, so what
    [JSON.stringify] and [JSON.parse] make of it is what was written. *)
Lemma wire_snapshot (Number_wire : Num -> Value) (input : Value) :
  Client.wire Number_wire (Route.s_normalizeSnapshot input)
    = written (Route.s_normalizeSnapshot input).
Proof.
  unfold Route.s_normalizeSnapshot. cbv zeta. name_cleaned input.
  destruct brandBrief, additionalReqs, billing; reflexivity.
Qed.

(** X17. The optional fields that [JSON.stringify] leaves out of the
    body come back: the page's normaliser, applied to what was written of
    a snapshot of the route, gives that snapshot again. *)
Theorem page_restores_written_snapshot (input : Value) :
  Page.normalizeSnapshot (written (Route.s_normalizeSnapshot input))
    = Route.s_normalizeSnapshot input.
Proof.
  unfold Route.s_normalizeSnapshot. cbv zeta. name_cleaned input.
  destruct brandBrief, additionalReqs, billing; reflexivity.
Qed.

(** Whatever it is given (an object, null, a string, an array),
    [normalizeResult] returns an object whose snapshot has its six
    mandatory fields as strings, whose risks and counters are arrays (those
    of the input where it has arrays, empty otherwise, and not filtered),
    and whose rawText is a non-empty string or [undefined]. *)
Lemma normalizeResult_is_well_shaped (data : Value) :
  Forall (fun k => is_string (getProp (getProp (Page.normalizeResult data)
                                         (js "snapshot")) k) = true)
         mandatory_fields /\
  getProp (Page.normalizeResult data) (js "risks")
    = JArr (array_or_empty (getProp data (js "risks"))) /\
  getProp (Page.normalizeResult data) (js "counters")
    = JArr (array_or_empty (getProp data (js "counters"))) /\
  (getProp (Page.normalizeResult data) (js "rawText") = JUndefined \/
   exists c s, getProp (Page.normalizeResult data) (js "rawText") = JStr (c :: s)).
Proof.
  repeat split.
  - repeat constructor.
  - change (getProp (Page.normalizeResult data) (js "rawText"))
      with (or_undefined (Page.cleanStr (getProp data (js "rawText")))).
    destruct (Page.cleanStr _) as [|c s]; [now left|right; now exists c, s].
Qed.

(** X18. [normalizeResult] applied to its own result changes nothing. *)
Theorem normalizeResult_twice_is_once (data : Value) :
  Page.normalizeResult (Page.normalizeResult data) = Page.normalizeResult data.
Proof.
  unfold Page.normalizeResult at 2 3. cbv zeta.
  generalize (nullish (getProp data (js "snapshot")) (JObj [])). intros snap.
  generalize (array_or_empty (getProp data (js "risks"))). intros risks.
  generalize (array_or_empty (getProp data (js "counters"))). intros counters.
  generalize (Page.cleanStr (getProp data (js "rawText"))). intros raw.
  unfold Page.normalizeResult. cbv zeta.
  change (getProp (JObj _) (js "snapshot")) with (Page.normalizeSnapshot snap).
  change (getProp (JObj _) (js "risks")) with (JArr risks).
  change (getProp (JObj _) (js "counters")) with (JArr counters).
  change (getProp (JObj _) (js "rawText")) with (or_undefined raw).
  change (Page.normalizeSnapshot snap) with (Route.s_normalizeSnapshot snap).
  replace (nullish (Route.s_normalizeSnapshot snap) (JObj []))
    with (Route.s_normalizeSnapshot snap) by reflexivity.
  change (Page.normalizeSnapshot (Route.s_normalizeSnapshot snap))
    with (Route.s_normalizeSnapshot (Route.s_normalizeSnapshot snap)).
  rewrite snapshot_idempotent.
  destruct raw; reflexivity.
Qed.

(** X19. The page's [normalizeResult] leaves the object of a 200
    response as the route built it. *)
Theorem page_keeps_route_result (w : World) (r : Response) (t : Trace) :
  Route.POST w = (Resolved r, t) -> status r = 200%N ->
  Page.normalizeResult (body r) = body r.
Proof.
  intros HP H200.
  destruct (Route_POST_200_inv w HP H200)
    as (text & tr & choices & counters & req & _ & Hs & _ & _ & -> & _).
  cbn [Route_ok body]. unfold review_body, Page.normalizeResult. cbv zeta.
  change (getProp (JObj _) (js "snapshot"))
    with (Route.s_normalizeSnapshot
            (nullish (getProp (parse_or_empty (first_content choices)) (js "snapshot"))
                     (JObj []))).
  change (getProp (JObj _) (js "risks"))
    with (JArr (array_or_empty
                  (getProp (parse_or_empty (first_content choices)) (js "risks")))).
  change (getProp (JObj _) (js "counters")) with (JArr counters).
  change (getProp (JObj _) (js "rawText")) with (@JStr Num (slice0 50000 text)).
  set (snap := nullish (getProp _ (js "snapshot")) (JObj [])).
  replace (nullish (Route.s_normalizeSnapshot snap) (JObj []))
    with (Route.s_normalizeSnapshot snap) by reflexivity.
  change (Page.normalizeSnapshot (Route.s_normalizeSnapshot snap))
    with (Route.s_normalizeSnapshot (Route.s_normalizeSnapshot snap)).
  rewrite snapshot_idempotent.
  cbn [array_or_empty Page.cleanStr].
  assert (Hraw : slice0 50000 text <> []).
  { unfold too_short in Hs. apply orb_false_iff in Hs. destruct Hs as [Hs _].
    destruct text; [discriminate Hs|]. discriminate. }
  destruct (slice0 50000 text); [contradiction|reflexivity].
Qed.

End Normalisers.

(** ** The page: display and API call *)

Lemma trim_nil_of_nil : trim [] = [].
Proof. reflexivity. Qed.

(** X20. [show] returns its argument when that has a character other
    than white space, and "Not Specified" otherwise, so what it returns is
    never blank. *)
Theorem show_is_never_blank (val : option jsstring) :
  trim (Client.show val) <> [] /\
  (forall s, val = Some s -> trim s <> [] -> Client.show val = s) /\
  (forall s, val = Some s -> trim s = [] -> Client.show val = js "Not Specified") /\
  (val = None -> Client.show val = js "Not Specified").
Proof.
  assert (Hblank : trim (js "Not Specified") <> []) by (vm_compute; discriminate).
  assert (Hlen : forall s, (str_length (trim s) =? 0)%N = true <-> trim s = []).
  { intros s. unfold str_length. rewrite N.eqb_eq.
    destruct (trim s); simpl; split; try reflexivity; try discriminate; lia. }
  repeat split.
  - destruct val as [s|]; [|exact Hblank]. unfold Client.show.
    destruct s as [|c s]; [exact Hblank|]. cbn [str_falsy negb andb].
    destruct (str_length (trim (c :: s)) =? 0)%N eqn:Hz; cbn [negb]; [exact Hblank|].
    intros Hnil. apply Hlen in Hnil. congruence.
  - intros s -> Hs. unfold Client.show.
    destruct s as [|c s]; [now destruct Hs|]. cbn [str_falsy negb andb].
    destruct (str_length (trim (c :: s)) =? 0)%N eqn:Hz; [|reflexivity].
    apply Hlen in Hz. contradiction.
  - intros s -> Hs. unfold Client.show.
    apply Hlen in Hs. rewrite Hs. now destruct (negb (str_falsy s)).
  - intros ->. reflexivity.
Qed.

Section Api.
Context {E : Engine}.
Variable Number_truthy : Num -> bool.
Variable Number_wire : Num -> Value.

Ltac unfold_c :=
  cbv beta iota zeta delta
    [Client.settle Client.attempt Client.then_ Client.awaiting Client.pure
     Client.give Client.raise Client.log Client.throw_new_Error] in *.

(** X21. [analyzeContract] never rejects.  It resolves to
    [normalizeResult] of the JSON of an OK response, and to the fallback
    result in every other case: a failed fetch, a status outside 200-299
    whatever the body, or a body that is not JSON.  Either way the result
    has a snapshot with six string fields and arrays for risks and
    counters. *)
Theorem analyzeContract_always_resolves (net : Client.Network) :
  exists v calls,
    Client.analyzeContract Number_truthy net = (Resolved v, calls) /\
    v = match Client.fetch net with
        | Resolved res =>
            if Client.ok res then
              match Client.json res with
              | Resolved data => Page.normalizeResult data
              | Rejected => Client.fallback
              end
            else Client.fallback
        | Rejected => Client.fallback
        end /\
    Forall (fun k => is_string (getProp (getProp v (js "snapshot")) k) = true)
           mandatory_fields /\
    isArray (getProp v (js "risks")) = true /\
    isArray (getProp v (js "counters")) = true.
Proof.
  assert (Hfb : Forall (fun k => is_string (getProp (getProp Client.fallback
                                    (js "snapshot")) k) = true) mandatory_fields /\
                isArray (getProp Client.fallback (js "risks")) = true /\
                isArray (getProp Client.fallback (js "counters")) = true)
    by (repeat split; repeat constructor).
  assert (Hnr : forall data,
            Forall (fun k => is_string (getProp (getProp (Page.normalizeResult data)
                                    (js "snapshot")) k) = true) mandatory_fields /\
            isArray (getProp (Page.normalizeResult data) (js "risks")) = true /\
            isArray (getProp (Page.normalizeResult data) (js "counters")) = true)
    by (intros; repeat split; repeat constructor).
  unfold Client.analyzeContract. unfold_c.
  destruct (Client.fetch net) as [res|]; [|do 2 eexists; split; [reflexivity|now split]].
  destruct (Client.ok res); cbn [negb].
  - destruct (Client.json res) as [data|];
      do 2 eexists; (split; [reflexivity|]); split; auto.
  - destruct (Client.json res) as [j|].
    + destruct (ToString (if Client.truthy Number_truthy (getProp j (js "error"))
                          then getProp j (js "error") else _));
        do 2 eexists; (split; [reflexivity|]); split; auto.
    + cbn [ToString]. do 2 eexists. split; [reflexivity|]. split; auto.
Qed.

(** The answers of the route other than 200, with their message. *)
Lemma Route_error_answer (w : World) (r : Response) (t : Trace) :
  Route.POST w = (Resolved r, t) -> status r <> 200%N ->
  exists c msg,
    body r = JObj [(js "error", JStr (c :: msg))] /\
    In (status r) [400; 413; 415; 422; 500]%N.
Proof.
  rewrite Route_POST_phases.
  destruct (Route.POST_text w []) as [[text|r'|] tr] eqn:Ht.
  - destruct (Route.POST_reply w text tr) as [[a|r'|] t'] eqn:Hr.
    + discriminate.
    + intros [= <- <-] Hne. unfold Route.POST_reply in Hr.
      destruct (_ || _) in Hr.
      * unfold_m. injection Hr as <- _. do 2 eexists. split; [reflexivity|simpl; auto 6].
      * unfold_m. destruct (new_OpenAI w) as [[]|]; [|discriminate].
        destruct (chat_create w); [|discriminate].
        destruct (filterM _ _); [|discriminate].
        injection Hr as <- _. now destruct Hne.
    + intros [= <- <-] _. do 2 eexists. split; [reflexivity|simpl; auto 7].
  - intros [= <- <-] _. revert Ht.
    unfold Route.POST_text. unfold_m.
    destruct (formData w) as [file|]; [|discriminate].
    destruct (entry_falsy file);
      [intros [= <- _]; do 2 eexists; split; [reflexivity|simpl; auto]|].
    destruct (match entry_size file with Some n => _ | None => _ end);
      [intros [= <- _]; do 2 eexists; split; [reflexivity|simpl; auto]|].
    destruct (opt_truthy (entry_name file) && _);
      [intros [= <- _]; do 2 eexists; split; [reflexivity|simpl; auto]|].
    destruct (entry_arrayBuffer file) as [buf|]; [|discriminate].
    destruct (Route.looksLikePDF _ _).
    { destruct (pdfParse w); [discriminate|].
      intros [= <- _]. do 2 eexists. split; [reflexivity|simpl; auto 6]. }
    destruct (Route.looksLikeDOCX _ _ || _).
    { destruct (extractRawText w); [discriminate|].
      intros [= <- _]. do 2 eexists. split; [reflexivity|simpl; auto 6]. }
    destruct (pdfParse w) as [out|]; [destruct (str_falsy (or_empty out))|cbn [str_falsy]];
      try destruct (extractRawText w); discriminate.
  - intros [= <- <-] _. do 2 eexists. split; [reflexivity|simpl; auto 7].
Qed.

(** X22. Every answer of the route other than 200 ends, on the page, in
    the fallback result (parties "(unknown)", nothing else): the message of
    the route is logged with [console.error] and is not part of what
    [analyzeContract] returns. *)
Theorem route_error_becomes_fallback (w : World) (r : Response) (t : Trace) :
  Route.POST w = (Resolved r, t) -> status r <> 200%N ->
  exists msg,
    body r = JObj [(js "error", JStr msg)] /\
    Client.analyzeContract Number_truthy (Client.received Number_wire r)
      = (Resolved Client.fallback,
         [ Client.Fetch (js "/api/review") (js "POST");
           Client.ReadJson;
           Client.ConsoleError (js "analyzeContract error") (Client.Error msg) ]).
Proof.
  intros HP Hne.
  destruct (Route_error_answer w HP Hne) as (c & msg & Hb & Hst).
  exists (c :: msg). split; [exact Hb|].
  unfold Client.analyzeContract, Client.received. unfold_c.
  cbn [Client.fetch Client.status Client.json]. rewrite Hb.
  cbn [Client.wire].
  match goal with
  | |- context [Client.ok ?res] => assert (Hok : Client.ok res = false)
  end.
  { unfold Client.ok, status_of. cbn [Client.status].
    simpl in Hst.
    repeat (destruct Hst as [<-|Hst]; [reflexivity|]). contradiction. }
  rewrite Hok. reflexivity.
Qed.

Lemma normalizeResult_fields (data : Value) :
  getProp (Page.normalizeResult data) (js "snapshot")
    = Page.normalizeSnapshot (nullish (getProp data (js "snapshot")) (JObj [])) /\
  getProp (Page.normalizeResult data) (js "risks")
    = JArr (array_or_empty (getProp data (js "risks"))) /\
  getProp (Page.normalizeResult data) (js "counters")
    = JArr (array_or_empty (getProp data (js "counters"))) /\
  getProp (Page.normalizeResult data) (js "rawText")
    = or_undefined (Page.cleanStr (getProp data (js "rawText"))).
Proof. repeat split. Qed.

(** X23. On a 200 the page gets back what the route built: after
    [JSON.stringify], the transfer and [JSON.parse], [analyzeContract]
    resolves to a result whose snapshot is the route's, optional fields
    that were left out of the body included, whose rawText is the route's,
    and whose risks and counters are the route's as JSON carries them. *)
Theorem page_shows_route_result (w : World) (r : Response) (t : Trace) :
  Route.POST w = (Resolved r, t) -> status r = 200%N ->
  exists v,
    Client.analyzeContract Number_truthy (Client.received Number_wire r)
      = (Resolved v,
         [ Client.Fetch (js "/api/review") (js "POST");
           Client.ReadJson;
           Client.ConsoleLog (Client.wire Number_wire (body r)) ]) /\
    getProp v (js "snapshot") = getProp (body r) (js "snapshot") /\
    getProp v (js "rawText") = getProp (body r) (js "rawText") /\
    getProp v (js "risks")
      = Client.wire Number_wire (getProp (body r) (js "risks")) /\
    getProp v (js "counters")
      = Client.wire Number_wire (getProp (body r) (js "counters")).
Proof.
  intros HP H200.
  destruct (Route_POST_200_inv w HP H200)
    as (text & tr & choices & counters & req & _ & Hs & _ & _ & -> & _).
  assert (Hraw : slice0 50000 text <> []).
  { unfold too_short in Hs. apply orb_false_iff in Hs. destruct Hs as [Hs _].
    destruct text; [discriminate Hs|]. discriminate. }
  eexists. split.
  - unfold Client.analyzeContract, Client.received. unfold_c.
    cbn [Client.fetch Client.status Client.json].
    change (Client.ok _) with true. cbn [negb]. reflexivity.
  - set (data := parse_or_empty (first_content choices)).
    set (snap := nullish (getProp data (js "snapshot")) (JObj [])).
    assert (Hw : Client.wire Number_wire (body (Route_ok data counters text))
                 = JObj [ (js "snapshot", written (Route.s_normalizeSnapshot snap));
                          (js "risks",
                           Client.wire Number_wire
                             (JArr (array_or_empty (getProp data (js "risks")))));
                          (js "counters", Client.wire Number_wire (JArr counters));
                          (js "rawText", JStr (slice0 50000 text)) ]).
    { rewrite <- (wire_snapshot Number_wire snap).
      change (body (Route_ok data counters text))
        with (JObj [ (js "snapshot", Route.s_normalizeSnapshot snap);
                     (js "risks", JArr (array_or_empty (getProp data (js "risks"))));
                     (js "counters", JArr counters);
                     (js "rawText", JStr (slice0 50000 text)) ]).
      destruct (Route.s_normalizeSnapshot snap) eqn:Hn; try discriminate Hn;
        reflexivity. }
    destruct (normalizeResult_fields
                (Client.wire Number_wire (body (Route_ok data counters text))))
      as (Hf1 & Hf2 & Hf3 & Hf4).
    rewrite Hf1, Hf2, Hf3, Hf4, Hw.
    change (getProp (JObj _) (js "snapshot"))
      with (written (Route.s_normalizeSnapshot snap)).
    change (getProp (JObj _) (js "risks"))
      with (Client.wire Number_wire
              (JArr (array_or_empty (getProp data (js "risks"))))).
    change (getProp (JObj _) (js "counters"))
      with (Client.wire Number_wire (JArr counters)).
    change (getProp (JObj _) (js "rawText")) with (@JStr Num (slice0 50000 text)).
    replace (nullish (written (Route.s_normalizeSnapshot snap)) (JObj []))
      with (written (Route.s_normalizeSnapshot snap)) by reflexivity.
    rewrite written_snapshot_restored.
    repeat split.
    cbn [Page.cleanStr].
    change (getProp (body (Route_ok data counters text)) (js "rawText"))
      with (@JStr Num (slice0 50000 text)).
    destruct (slice0 50000 text); [contradiction|reflexivity].
Qed.

End Api.

(** ** The handler of part_000 *)

Section CorsAnswers.
Context {E : Engine}.

(** X24. The handler of part_000 answers every request too, with one of
    the statuses 200, 400, 413, 415, 422, 500, and puts the three CORS
    headers and Content-Type on every answer, errors included; an answer
    other than 200 carries an object with a single string property
    error. *)
Theorem cors_on_every_answer (w : World) :
  exists r t,
    Cors.POST w = (Resolved r, t) /\
    In (status r) [200; 400; 413; 415; 422; 500]%N /\
    headers r = [ (js "Access-Control-Allow-Origin", js "*");
                  (js "Access-Control-Allow-Methods", js "POST, OPTIONS");
                  (js "Access-Control-Allow-Headers", js "Content-Type");
                  (js "Content-Type", js "application/json") ] /\
    (status r = 200%N \/ exists msg, body r = JObj [(js "error", JStr msg)]).
Proof.
  destruct (POST_agree w) as (r1 & t1 & r2 & t2 & H1 & H2 & Hs & Hb & [Hh _] & _).
  destruct (Route_answers w) as (r1' & t1' & H1' & Hst & Hbody).
  rewrite H1 in H1'. injection H1' as <- <-.
  exists r2, t2. split; [exact H2|].
  rewrite <- Hs, <- Hb. repeat split; assumption.
Qed.

End CorsAnswers.

(** ** The further properties at concrete requests *)

Section Instances.
#[local] Existing Instance Demo.engine.

Lemma missing_file_is_400_witness :
  formData Cases.no_file_world = Resolved EntryNull /\
  (EntryNull = EntryNull \/ EntryNull = EntryString []) /\
  Route.POST Cases.no_file_world
    = (Resolved (Route_error "No file provided" 400), [EvFormData]).
Proof.
  split; [reflexivity|]. split; [left; reflexivity|].
  apply (@missing_file_is_400 Demo.engine Cases.no_file_world EntryNull).
  - reflexivity.
  - left. reflexivity.
Defined.

Lemma oversized_file_is_413_witness :
  formData Demo.big_world = Resolved (EntryFile Demo.big_txt) /\
  (15728640 < size Demo.big_txt)%N /\
  Route.POST Demo.big_world
    = (Resolved (Route_error "File too large (max 15MB)." 413), [EvFormData]).
Proof.
  split; [reflexivity|]. split; [reflexivity|].
  apply (@oversized_file_is_413 Demo.engine Demo.big_world Demo.big_txt).
  - reflexivity.
  - reflexivity.
Defined.

Lemma text_field_is_500_witness :
  formData Cases.text_field_world = Resolved (EntryString (js "deal.pdf")) /\
  js "deal.pdf" <> [] /\
  Route.POST Cases.text_field_world
    = (Resolved Route_500,
       [EvFormData; EvArrayBuffer; EvConsoleError (js "/api/review error")]).
Proof.
  split; [reflexivity|]. split; [vm_compute; discriminate|].
  apply (@text_field_is_500 Demo.engine Cases.text_field_world (js "deal.pdf")).
  - reflexivity.
  - vm_compute. discriminate.
Defined.

Lemma pdf_upload_uses_pdf_parse_witness :
  formData Cases.locked_pdf_world = Resolved (EntryFile Demo.deal_pdf) /\
  (size Demo.deal_pdf <= 15728640)%N /\
  (name Demo.deal_pdf = [] \/ supported_extension (name Demo.deal_pdf) = true) /\
  arrayBuffer Demo.deal_pdf = Resolved [37; 80; 68; 70]%N /\
  is_pdf Demo.deal_pdf = true /\
  pdfParse Cases.locked_pdf_world = Rejected /\
  Route.POST Cases.locked_pdf_world
    = (Resolved (Route_error
         "Unable to parse PDF. If it's password-protected, export an unlocked copy and re-upload."
         422),
       [EvFormData; EvArrayBuffer; EvPdfParse [37; 80; 68; 70]%N]).
Proof.
  split; [reflexivity|]. split; [vm_compute; discriminate|].
  split; [right; reflexivity|]. split; [reflexivity|].
  split; [reflexivity|]. split; [reflexivity|].
  apply (@pdf_upload_uses_pdf_parse Demo.engine Cases.locked_pdf_world
           Demo.deal_pdf [37; 80; 68; 70]%N).
  - reflexivity.
  - vm_compute. discriminate.
  - right. reflexivity.
  - reflexivity.
  - reflexivity.
  - reflexivity.
Defined.

Lemma word_upload_uses_mammoth_witness :
  formData Cases.broken_docx_world = Resolved (EntryFile Cases.brief_docx) /\
  (size Cases.brief_docx <= 15728640)%N /\
  (name Cases.brief_docx = [] \/ supported_extension (name Cases.brief_docx) = true) /\
  arrayBuffer Cases.brief_docx = Resolved [80; 75; 3; 4]%N /\
  is_pdf Cases.brief_docx = false /\
  is_word Cases.brief_docx = true /\
  extractRawText Cases.broken_docx_world = Rejected /\
  Route.POST Cases.broken_docx_world
    = (Resolved (Route_error
         "Unable to read Word file. Try saving as DOCX or PDF and re-upload." 422),
       [EvFormData; EvArrayBuffer; EvExtractRawText [80; 75; 3; 4]%N]).
Proof.
  split; [reflexivity|]. split; [vm_compute; discriminate|].
  split; [right; reflexivity|]. split; [reflexivity|].
  split; [reflexivity|]. split; [reflexivity|]. split; [reflexivity|].
  apply (@word_upload_uses_mammoth Demo.engine Cases.broken_docx_world
           Cases.brief_docx [80; 75; 3; 4]%N).
  - reflexivity.
  - vm_compute. discriminate.
  - right. reflexivity.
  - reflexivity.
  - reflexivity.
  - reflexivity.
  - reflexivity.
Defined.

Lemma other_upload_tries_both_witness :
  formData Cases.rtf_world = Resolved (EntryFile Cases.terms_rtf) /\
  (size Cases.terms_rtf <= 15728640)%N /\
  (name Cases.terms_rtf = [] \/ supported_extension (name Cases.terms_rtf) = true) /\
  arrayBuffer Cases.terms_rtf = Resolved [123; 92]%N /\
  is_pdf Cases.terms_rtf = false /\
  is_word Cases.terms_rtf = false /\
  fallback_text Cases.rtf_world = [] /\
  Route.POST Cases.rtf_world
    = (Resolved (Route_error
         "We couldn't extract readable text. Please export to PDF or DOCX and re-upload."
         422),
       [EvFormData; EvArrayBuffer; EvPdfParse [123; 92]%N;
        EvExtractRawText [123; 92]%N]).
Proof.
  split; [reflexivity|]. split; [vm_compute; discriminate|].
  split; [right; reflexivity|]. split; [reflexivity|].
  split; [reflexivity|]. split; [reflexivity|]. split; [reflexivity|].
  apply (@other_upload_tries_both Demo.engine Cases.rtf_world
           Cases.terms_rtf [123; 92]%N).
  - reflexivity.
  - vm_compute. discriminate.
  - right. reflexivity.
  - reflexivity.
  - reflexivity.
  - reflexivity.
  - reflexivity.
Defined.


Lemma unconvertible_counter_is_500_witness :
  Route.POST_text Demo.opaque_world [] = (Normal Demo.contract_text, Demo.pdf_trace) /\
  too_short Demo.contract_text = false /\
  new_OpenAI Demo.opaque_world = Resolved tt /\
  chat_create Demo.opaque_world
    = Resolved [{| message_content := Some Demo.reply_opaque_counter |}] /\
  In (JObj [(js "toString", JNum 1%Z)])
     (array_or_empty
        (getProp (parse_or_empty
                    (first_content [{| message_content := Some Demo.reply_opaque_counter |}]))
                 (js "counters"))) /\
  ToString (JObj [(js "toString", JNum 1%Z)]) = None /\
  exists req,
    Route.POST Demo.opaque_world
      = (Resolved Route_500,
         Demo.pdf_trace ++ [EvChatCreate req; EvConsoleError (js "/api/review error")]).
Proof.
  split; [reflexivity|]. split; [reflexivity|]. split; [reflexivity|].
  split; [reflexivity|]. split; [left; reflexivity|]. split; [reflexivity|].
  apply (@unconvertible_counter_is_500 Demo.engine Demo.opaque_world
           Demo.contract_text Demo.pdf_trace
           [{| message_content := Some Demo.reply_opaque_counter |}]
           (JObj [(js "toString", JNum 1%Z)])).
  - reflexivity.
  - reflexivity.
  - reflexivity.
  - reflexivity.
  - left. reflexivity.
  - reflexivity.
Defined.

Lemma model_failure_is_500_witness :
  Route.POST_text Cases.offline_world [] = (Normal Demo.contract_text, Demo.pdf_trace) /\
  too_short Demo.contract_text = false /\
  new_OpenAI Cases.offline_world = Resolved tt /\
  chat_create Cases.offline_world = Rejected /\
  Route.POST Cases.offline_world
    = (Resolved Route_500,
       Demo.pdf_trace ++ [EvChatCreate Demo.request;
                          EvConsoleError (js "/api/review error")]).
Proof.
  split; [reflexivity|]. split; [reflexivity|].
  split; [reflexivity|]. split; [reflexivity|].
  destruct (@model_failure_is_500 Demo.engine Cases.offline_world
              Demo.contract_text Demo.pdf_trace eq_refl eq_refl) as [_ H].
  destruct (H eq_refl eq_refl) as (req & Hreq & HP).
  rewrite HP, Hreq. reflexivity.
Defined.

Lemma non_object_reply_is_empty_review_witness :
  Route.POST_text Cases.array_world [] = (Normal Demo.contract_text, Demo.pdf_trace) /\
  too_short Demo.contract_text = false /\
  new_OpenAI Cases.array_world = Resolved tt /\
  chat_create Cases.array_world
    = Resolved [{| message_content := Some Cases.reply_array |}] /\
  JSON_parse (first_content [{| message_content := Some Cases.reply_array |}])
    = Some (JArr [JNum 1%Z; JNum 2%Z]) /\
  is_plain_object (JArr [JNum 1%Z; JNum 2%Z]) = false /\
  exists req,
    Route.POST Cases.array_world
      = (Resolved (Route_ok (JObj []) [] Demo.contract_text),
         Demo.pdf_trace ++ [EvChatCreate req]) /\
    body (Route_ok (JObj []) [] Demo.contract_text)
      = review_body (Route.s_normalizeSnapshot (JObj [])) [] []
                    (slice0 50000 Demo.contract_text).
Proof.
  split; [reflexivity|]. split; [reflexivity|]. split; [reflexivity|].
  split; [reflexivity|]. split; [reflexivity|]. split; [reflexivity|].
  apply (@non_object_reply_is_empty_review Demo.engine Cases.array_world
           Demo.contract_text Demo.pdf_trace
           [{| message_content := Some Cases.reply_array |}]
           (JArr [JNum 1%Z; JNum 2%Z])).
  - reflexivity.
  - reflexivity.
  - reflexivity.
  - reflexivity.
  - reflexivity.
  - reflexivity.
Defined.

Lemma missing_content_is_empty_review_witness :
  Route.POST_text Cases.silent_world [] = (Normal Demo.contract_text, Demo.pdf_trace) /\
  too_short Demo.contract_text = false /\
  new_OpenAI Cases.silent_world = Resolved tt /\
  chat_create Cases.silent_world = Resolved [] /\
  JSON_parse (js "{}") = Some (JObj []) /\
  exists req,
    Route.POST Cases.silent_world
      = (Resolved (Route_ok (JObj []) [] Demo.contract_text),
         Demo.pdf_trace ++ [EvChatCreate req]).
Proof.
  split; [reflexivity|]. split; [reflexivity|]. split; [reflexivity|].
  split; [reflexivity|]. split; [reflexivity|].
  apply (@missing_content_is_empty_review Demo.engine Cases.silent_world
           Demo.contract_text Demo.pdf_trace []).
  - reflexivity.
  - reflexivity.
  - reflexivity.
  - reflexivity.
  - left. reflexivity.
  - reflexivity.
Defined.

Lemma rawText_is_bounded_witness :
  Route.POST Demo.full_world = (Resolved Demo.full_response, Demo.called_trace) /\
  status Demo.full_response = 200%N /\
  exists raw,
    getProp (body Demo.full_response) (js "rawText") = JStr raw /\
    (20 <= str_length raw <= 50000)%N.
Proof.
  split; [reflexivity|]. split; [reflexivity|].
  apply (@rawText_is_bounded Demo.engine Demo.full_world
           Demo.full_response Demo.called_trace).
  - reflexivity.
  - reflexivity.
Defined.

Lemma page_keeps_route_result_witness :
  Route.POST Demo.full_world = (Resolved Demo.full_response, Demo.called_trace) /\
  status Demo.full_response = 200%N /\
  Page.normalizeResult (body Demo.full_response) = body Demo.full_response.
Proof.
  split; [reflexivity|]. split; [reflexivity|].
  apply (@page_keeps_route_result Demo.engine Demo.full_world
           Demo.full_response Demo.called_trace).
  - reflexivity.
  - reflexivity.
Defined.

Lemma route_error_becomes_fallback_witness :
  Route.POST Demo.short_world
    = (Resolved (Route_error
         "We couldn't extract readable text. Please export to PDF or DOCX and re-upload."
         422), Demo.pdf_trace) /\
  status (Route_error
    "We couldn't extract readable text. Please export to PDF or DOCX and re-upload."
    422) <> 200%N /\
  exists msg,
    body (Route_error
      "We couldn't extract readable text. Please export to PDF or DOCX and re-upload."
      422) = JObj [(js "error", JStr msg)] /\
    Client.analyzeContract Cases.Z_truthy
      (Client.received Cases.Z_wire (Route_error
         "We couldn't extract readable text. Please export to PDF or DOCX and re-upload."
         422))
      = (Resolved Client.fallback,
         [ Client.Fetch (js "/api/review") (js "POST");
           Client.ReadJson;
           Client.ConsoleError (js "analyzeContract error") (Client.Error msg) ]).
Proof.
  split; [reflexivity|]. split; [vm_compute; discriminate|].
  apply (@route_error_becomes_fallback Demo.engine Cases.Z_truthy Cases.Z_wire
           Demo.short_world _ Demo.pdf_trace).
  - reflexivity.
  - vm_compute. discriminate.
Defined.

Lemma page_shows_route_result_witness :
  Route.POST Demo.full_world = (Resolved Demo.full_response, Demo.called_trace) /\
  status Demo.full_response = 200%N /\
  exists v,
    Client.analyzeContract Cases.Z_truthy
      (Client.received Cases.Z_wire Demo.full_response)
      = (Resolved v,
         [ Client.Fetch (js "/api/review") (js "POST");
           Client.ReadJson;
           Client.ConsoleLog (Client.wire Cases.Z_wire (body Demo.full_response)) ]) /\
    getProp v (js "snapshot") = getProp (body Demo.full_response) (js "snapshot") /\
    getProp v (js "rawText") = getProp (body Demo.full_response) (js "rawText") /\
    getProp v (js "risks")
      = Client.wire Cases.Z_wire (getProp (body Demo.full_response) (js "risks")) /\
    getProp v (js "counters")
      = Client.wire Cases.Z_wire (getProp (body Demo.full_response) (js "counters")).
Proof.
  split; [reflexivity|]. split; [reflexivity|].
  apply (@page_shows_route_result Demo.engine Cases.Z_truthy Cases.Z_wire
           Demo.full_world Demo.full_response Demo.called_trace).
  - reflexivity.
  - reflexivity.
Defined.

End Instances.

(** ** Risks and counters, in the object and on the wire *)

Section Carried.
Context {E : Engine}.
Variable Number_wire : Num -> Value.

(** The risks and counters of the body of a 200 as [JSON.stringify]
    writes them. *)
Lemma wire_body_lists (data : Value) (counters : list Value) (text : jsstring) :
  getProp (Client.wire Number_wire (body (Route_ok data counters text))) (js "risks")
    = JArr (map (written_element Number_wire)
                (array_or_empty (getProp data (js "risks")))) /\
  getProp (Client.wire Number_wire (body (Route_ok data counters text))) (js "counters")
    = JArr (map (written_element Number_wire) counters).
Proof.
  change (body (Route_ok data counters text))
    with (JObj [ (js "snapshot",
                  Route.s_normalizeSnapshot
                    (nullish (getProp data (js "snapshot")) (JObj [])));
                 (js "risks", JArr (array_or_empty (getProp data (js "risks"))));
                 (js "counters", JArr counters);
                 (js "rawText", JStr (slice0 50000 text)) ]).
  destruct (Route.s_normalizeSnapshot _) eqn:Hn; try discriminate Hn.
  split; reflexivity.
Qed.

(** C9, as amended.  In every 200 response risks is an ordered list.  When
    the reply parses to a value that holds an array under risks, the
    object the handler serialises holds that very array, element for
    element and in order, whatever the shape of the elements, and the body
    on the wire holds each of these elements as [JSON.stringify] writes
    it (a number that is not finite is written [null]).  When the reply
    holds no array there, or does not parse, risks is the empty list. *)
Theorem risks_passed_through (w : World) (r : Response) (t : Trace) :
  Route.POST w = (Resolved r, t) -> status r = 200%N ->
  exists choices,
    chat_create w = Resolved choices /\
    (forall data xs,
       JSON_parse (first_content choices) = Some data ->
       getProp data (js "risks") = JArr xs ->
       getProp (body r) (js "risks") = JArr xs /\
       getProp (Client.wire Number_wire (body r)) (js "risks")
         = JArr (map (written_element Number_wire) xs)) /\
    (forall data,
       JSON_parse (first_content choices) = Some data ->
       isArray (getProp data (js "risks")) = false ->
       getProp (body r) (js "risks") = JArr [] /\
       getProp (Client.wire Number_wire (body r)) (js "risks") = JArr []) /\
    (JSON_parse (first_content choices) = None ->
       getProp (body r) (js "risks") = JArr [] /\
       getProp (Client.wire Number_wire (body r)) (js "risks") = JArr []).
Proof.
  intros HP H200.
  destruct (Route_POST_200_inv w HP H200)
    as (text & tr & choices & counters & req & _ & _ & Hc & _ & -> & _).
  exists choices. split; [assumption|].
  destruct (wire_body_lists (parse_or_empty (first_content choices)) counters text)
    as [Hw _].
  rewrite Hw.
  change (getProp (body (Route_ok (parse_or_empty (first_content choices))
                                  counters text)) (js "risks"))
    with (JArr (array_or_empty
                  (getProp (parse_or_empty (first_content choices)) (js "risks")))).
  unfold parse_or_empty.
  repeat split.
  - rewrite H, H0. reflexivity.
  - rewrite H, H0. reflexivity.
  - rewrite H. destruct (getProp data (js "risks")); try reflexivity. discriminate H0.
  - rewrite H. destruct (getProp data (js "risks")); try reflexivity. discriminate H0.
  - rewrite H. reflexivity.
  - rewrite H. reflexivity.
Qed.

(** X10. In every 200 response, for any reply whatever: when the reply
    parses to a value that holds an array under counters, every element of
    that array could be converted to a string, the object the handler
    serialises holds under counters exactly the elements that do not
    match [/late fee/i], in their order, and the body on the wire holds
    each of these as [JSON.stringify] writes it; when the reply holds no
    array there, or does not parse, counters is the empty list. *)
Theorem counters_are_the_reply_filtered (w : World) (r : Response) (t : Trace) :
  Route.POST w = (Resolved r, t) -> status r = 200%N ->
  exists choices,
    chat_create w = Resolved choices /\
    (forall data xs,
       JSON_parse (first_content choices) = Some data ->
       getProp data (js "counters") = JArr xs ->
       Forall (fun c => ToString c <> None) xs /\
       getProp (body r) (js "counters")
         = JArr (filter (fun c => negb (mentions_late_fee c)) xs) /\
       getProp (Client.wire Number_wire (body r)) (js "counters")
         = JArr (map (written_element Number_wire)
                     (filter (fun c => negb (mentions_late_fee c)) xs))) /\
    (forall data,
       JSON_parse (first_content choices) = Some data ->
       isArray (getProp data (js "counters")) = false ->
       getProp (body r) (js "counters") = JArr [] /\
       getProp (Client.wire Number_wire (body r)) (js "counters") = JArr []) /\
    (JSON_parse (first_content choices) = None ->
       getProp (body r) (js "counters") = JArr [] /\
       getProp (Client.wire Number_wire (body r)) (js "counters") = JArr []).
Proof.
  intros HP H200.
  destruct (Route_POST_200_inv w HP H200)
    as (text & tr & choices & counters & req & _ & _ & Hc & Hf & -> & _).
  exists choices. split; [assumption|].
  destruct (wire_body_lists (parse_or_empty (first_content choices)) counters text)
    as [_ Hw].
  rewrite Hw.
  change (getProp (body (Route_ok (parse_or_empty (first_content choices))
                                  counters text)) (js "counters"))
    with (JArr counters).
  unfold filter_counters in Hf. apply filterM_exact in Hf.
  destruct Hf as [Hcs Hall].
  unfold parse_or_empty in *.
  split; [|split].
  - intros data xs Hp Hxs. rewrite Hp in *. rewrite Hxs in *.
    cbn [array_or_empty] in *.
    assert (Hstr : Forall (fun c => ToString c <> None) xs).
    { apply Forall_forall. intros c Hin.
      rewrite Forall_forall in Hall. specialize (Hall c Hin).
      unfold late_fee_test in Hall. destruct (ToString c); [discriminate|].
      now destruct Hall. }
    assert (Hfil : counters = filter (fun c => negb (mentions_late_fee c)) xs).
    { rewrite Hcs. apply filter_ext_in. intros c Hin.
      rewrite Forall_forall in Hall. specialize (Hall c Hin).
      unfold mentions_late_fee.
      destruct (late_fee_test c) as [b|]; [reflexivity|]. now destruct Hall. }
    rewrite <- Hfil. repeat split. exact Hstr.
  - intros data Hp Harr. rewrite Hp in *.
    destruct (getProp data (js "counters")); try discriminate Harr;
      cbn [array_or_empty filter] in Hcs; subst counters; split; reflexivity.
  - intros Hp. rewrite Hp in *.
    cbn in Hcs. subst counters. split; reflexivity.
Qed.

End Carried.

(** ** What the two files do differently *)

Section Differences.
Context {E : Engine}.

Lemma with_system_no_chat (sys : jsstring) (t : Trace) :
  existsb is_chat t = false -> map (with_system sys) t = t.
Proof.
  induction t as [|e t IH]; simpl; [reflexivity|].
  destruct e; simpl; try discriminate; intros H; now rewrite IH.
Qed.

(** From the same trace on, lines 93-132 of the two files make the same
    calls but for the system message each sends. *)
Lemma POST_reply_calls (w : World) (text : jsstring) (t : Trace) :
  existsb is_chat t = false ->
  map (with_system Cors.system) (snd (Route.POST_reply w text t))
    = snd (Cors.POST_reply w text t) /\
  map (with_system Route.system) (snd (Cors.POST_reply w text t))
    = snd (Route.POST_reply w text t).
Proof.
  intros Ht.
  unfold Route.POST_reply, Cors.POST_reply.
  unfold Route.TEXT_LIMIT, Cors.TEXT_LIMIT. unfold_m.
  pose proof (with_system_no_chat Cors.system t Ht) as Hc.
  pose proof (with_system_no_chat Route.system t Ht) as Hr.
  destruct (_ || _); [cbn [snd]; now rewrite Hc, Hr|].
  destruct (new_OpenAI w) as [[]|]; [|cbn [snd]; now rewrite Hc, Hr].
  destruct (chat_create w) as [choices|];
    [destruct (filterM _ _)|]; cbn [snd];
    rewrite !map_app, Hc, Hr; split; reflexivity.
Qed.

(** The calls of the two handlers are the same but for the system
    message. *)
Lemma POST_calls (w : World) :
  map (with_system Cors.system) (snd (Route.POST w)) = snd (Cors.POST w) /\
  map (with_system Route.system) (snd (Cors.POST w)) = snd (Route.POST w).
Proof.
  rewrite Route_POST_phases, Cors_POST_phases.
  pose proof (POST_text_agree w [] []) as Ht.
  pose proof (POST_text_same_calls w []) as Hc.
  destruct (Route.POST_text w []) as [[text|r1|] tr1] eqn:H1,
           (Cors.POST_text w []) as [[text'|r2|] tr2];
    cbv beta iota delta [agree fst] in Ht; try contradiction;
    cbn [snd] in Hc; subst tr2;
    destruct (Route_POST_text_inv w [] H1) as [(evs & Hevs & Hno) _];
    simpl in Hevs; subst tr1.
  - subst text'.
    pose proof (POST_reply_agree w text evs evs) as Hr.
    pose proof (POST_reply_calls w text evs Hno) as [Hc1 Hc2].
    pose proof (Route_POST_reply_inv w text evs) as Hn.
    destruct (Route.POST_reply w text evs) as [[a|r1|] t1],
             (Cors.POST_reply w text evs) as [[a'|r2|] t2];
      cbv beta iota delta [agree fst] in Hr; try contradiction;
      cbn [snd] in *.
    + destruct (Hn _ _ eq_refl) as [Hn' _]. now destruct (Hn' a).
    + split; assumption.
    + rewrite !map_app, Hc1, Hc2. split; reflexivity.
  - cbn [snd]. now rewrite (with_system_no_chat Cors.system evs Hno),
                          (with_system_no_chat Route.system evs Hno).
  - cbn [snd]. rewrite !map_app, (with_system_no_chat Cors.system evs Hno),
                 (with_system_no_chat Route.system evs Hno).
    split; reflexivity.
Qed.

(** C10, as amended.  On every request and every completion the handler
    of route.ts and the handler of part_000 answer with the same status
    and the same body.  They differ in the response headers (part_000
    always sends the three CORS headers and Content-Type; route.ts sends
    Content-Type and Cache-Control on a 200 and content-type alone on an
    error) and in the system message they send to the model: each sends
    its own prompt, and the two prompts are different strings that are
    equal once the spaces opening their lines are removed.  Every other
    external call is the same. *)
Theorem handlers_agree (w : World) :
  exists r1 t1 r2 t2,
    Route.POST w = (Resolved r1, t1) /\
    Cors.POST w = (Resolved r2, t2) /\
    status r1 = status r2 /\
    body r1 = body r2 /\
    headers r2 = Cors.CORS_HEADERS ++ [(js "Content-Type", js "application/json")] /\
    headers r1 = (if (status r1 =? 200)%N
                  then [(js "Content-Type", js "application/json");
                        (js "Cache-Control", js "no-store, max-age=0")]
                  else [(js "content-type", js "application/json")]) /\
    map forget_system t1 = map forget_system t2 /\
    map (with_system Cors.system) t1 = t2 /\
    map (with_system Route.system) t2 = t1 /\
    Route.system <> Cors.system /\
    unindent Cors.system = unindent Route.system.
Proof.
  destruct (POST_agree w)
    as (r1 & t1 & r2 & t2 & H1 & H2 & Hs & Hb & (Hh2 & Hh1) & Ht).
  destruct (POST_calls w) as [Hc1 Hc2].
  rewrite H1, H2 in Hc1, Hc2. cbn [snd] in Hc1, Hc2.
  exists r1, t1, r2, t2.
  repeat (split; [assumption|]).
  split; [vm_compute; discriminate|vm_compute; reflexivity].
Qed.

End Differences.

(** ** The amended statements at concrete requests *)

Section Revisited.
#[local] Existing Instance Demo.engine.

Example route_cleans_non_strings :
  Route.s_cleanStr (JNum 120%Z) = js "120" /\
  Route.s_cleanStr (JBool true) = js "true" /\
  Route.s_cleanStr (JArr [JNum 1%Z; JNull; JStr (js "a")]) = js "1,,a".
Proof. repeat split. Qed.

Lemma pair_world_answer :
  Route.POST Pair.world = (Resolved Pair.response, Demo.called_trace).
Proof. reflexivity. Qed.

Lemma risks_passed_through_witness :
  Route.POST Pair.world = (Resolved Pair.response, Demo.called_trace) /\
  status Pair.response = 200%N /\
  JSON_parse Pair.reply = Some Pair.data /\
  getProp Pair.data (js "risks") = JArr [Pair.risk_a; Pair.risk_b] /\
  getProp (body Pair.response) (js "risks") = JArr [Pair.risk_a; Pair.risk_b] /\
  getProp (Client.wire Cases.Z_wire (body Pair.response)) (js "risks")
    = JArr [Pair.risk_a; Pair.risk_b].
Proof.
  split; [reflexivity|]. split; [reflexivity|].
  split; [reflexivity|]. split; [reflexivity|].
  destruct (@risks_passed_through Demo.engine Cases.Z_wire Pair.world
              Pair.response Demo.called_trace eq_refl eq_refl)
    as (choices & Hc & Harr & _).
  injection Hc as <-.
  exact (Harr Pair.data [Pair.risk_a; Pair.risk_b] eq_refl eq_refl).
Defined.

Lemma counters_are_the_reply_filtered_witness :
  Route.POST Pair.world = (Resolved Pair.response, Demo.called_trace) /\
  status Pair.response = 200%N /\
  JSON_parse Pair.reply = Some Pair.data /\
  getProp Pair.data (js "counters")
    = JArr [Pair.counter_a; Pair.counter_b; Pair.counter_c] /\
  getProp (body Pair.response) (js "counters")
    = JArr [Pair.counter_a; Pair.counter_c] /\
  getProp (Client.wire Cases.Z_wire (body Pair.response)) (js "counters")
    = JArr [Pair.counter_a; Pair.counter_c].
Proof.
  split; [reflexivity|]. split; [reflexivity|].
  split; [reflexivity|]. split; [reflexivity|].
  destruct (@counters_are_the_reply_filtered Demo.engine Cases.Z_wire Pair.world
              Pair.response Demo.called_trace eq_refl eq_refl)
    as (choices & Hc & Harr & _).
  injection Hc as <-.
  destruct (Harr Pair.data [Pair.counter_a; Pair.counter_b; Pair.counter_c]
              eq_refl eq_refl) as (_ & Hb & Hw).
  split; [exact Hb|exact Hw].
Defined.

(** C10: the claim fails on any request that reaches the model: for the
    same upload the two handlers send different chat requests, so they
    differ in more than the response headers. *)
Lemma handlers_send_different_prompts :
  Route.POST Demo.full_world
    = (Resolved Demo.full_response, Demo.pdf_trace ++ [EvChatCreate Demo.request]) /\
  Cors.POST Demo.full_world
    = (Resolved Pair.cors_response, Demo.pdf_trace ++ [EvChatCreate Pair.cors_request]) /\
  messages Demo.request <> messages Pair.cors_request /\
  snd (Route.POST Demo.full_world) <> snd (Cors.POST Demo.full_world).
Proof.
  split; [reflexivity|]. split; [reflexivity|].
  split; [vm_compute; discriminate|].
  vm_compute. discriminate.
Qed.

End Revisited.
